(** * plpgsql-lsp: go-to-definition index, statement extraction, hover

    A shallow embedding of the parts of the language server that index
    declared names and resolve a cursor word ([workspace/goToDefinition.ts]),
    describe parsed statements ([postgres/statement.ts]), answer hover
    requests ([services/hover.ts]) and react to document events (the
    [Handlers] class), with the properties the design document states
    about them. *)

From stdpp Require Import base option list strings gmap pretty.
From Stdlib Require Import Ascii.

Open Scope string_scope.
Open Scope list_scope.

(** Optional chaining [a?.b]: the access yields [undefined] ([None]) when
    the receiver is [undefined], and never throws. *)
Notation "x ?. f" := (mbind (M := option) f x)
  (at level 25, left associativity, format "x ?. f").

(** ** Protocol types (vscode-languageserver) *)

Definition uinteger := nat.
Definition integer := Z.
Definition DocumentUri := string.

Module Position.
Record t := mk { line : uinteger; character : uinteger }.
Definition create (line character : uinteger) : t := mk line character.
End Position.

Module Range.
Record t := mk { start : Position.t; end_ : Position.t }.
Definition create (start end_ : Position.t) : t := mk start end_.
End Range.

(** [LocationLink.create(targetUri, targetRange, targetSelectionRange,
    originSelectionRange?)] stores its four arguments; an argument the
    caller leaves out is [undefined]. *)
Module LocationLink.
Record t := mk {
  targetUri : DocumentUri;
  targetRange : Range.t;
  targetSelectionRange : Range.t;
  originSelectionRange : option Range.t }.
Definition create (targetUri : DocumentUri)
    (targetRange targetSelectionRange : Range.t)
    (originSelectionRange : option Range.t) : t :=
  mk targetUri targetRange targetSelectionRange originSelectionRange.
End LocationLink.

Definition DefinitionLink := LocationLink.t.

(** ** Parsed statements ([postgres/statement.ts])

    The tree comes from the external parser and is only partially
    populated: every field that the extraction code reaches through [?.]
    or compares with [undefined] is an [option] here.  Fields of
    [CreateFunctionStmt] that no function of the server reads
    ([returnType], [options]) are left out. *)

Module CreateStmtRelation.
Record t := mk {
  schemaname : option string;
  relname : option string;
  location : option uinteger }.
End CreateStmtRelation.

Module CreateStmt.
Record t := mk { relation : option CreateStmtRelation.t }.
End CreateStmt.

Module ViewStmtRelation.
Record t := mk {
  schemaname : option string;
  relname : option string;
  location : option uinteger }.
End ViewStmtRelation.

Module ViewStmt.
Record t := mk { view : option ViewStmtRelation.t }.
End ViewStmt.

Module CompositeTypeStmtTypevar.
Record t := mk {
  schemaname : option string;
  relname : option string;
  relpersistence : option string;
  location : option uinteger }.
End CompositeTypeStmtTypevar.

Module CompositeTypeStmt.
Record t := mk { typevar : option CompositeTypeStmtTypevar.t }.
End CompositeTypeStmt.

Module FuncNameString.
Record t := mk { str : option string }.
End FuncNameString.

Module FuncName.
Record t := mk { String : option FuncNameString.t }.
End FuncName.

Module CreateFunctionStmt.
Record t := mk {
  is_procedure : option bool;
  replace : option bool;
  funcname : option (list FuncName.t) }.
End CreateFunctionStmt.

Module CreateTrigStmtRelation.
Record t := mk {
  relname : option string;
  inh : option bool;
  relpersistence : option string }.
End CreateTrigStmtRelation.

Module CreateTrigStmt.
Record t := mk {
  trigname : option string;
  relation : option CreateTrigStmtRelation.t;
  funcname : option (list FuncName.t);
  row : option bool;
  events : option integer }.
End CreateTrigStmt.

Module IndexStmt.
Record t := mk { idxname : option string }.
End IndexStmt.

Module StatementItem.
Record t := mk {
  CreateStmt : option CreateStmt.t;
  ViewStmt : option ViewStmt.t;
  CompositeTypeStmt : option CompositeTypeStmt.t;
  CreateFunctionStmt : option CreateFunctionStmt.t;
  CreateTrigStmt : option CreateTrigStmt.t;
  IndexStmt : option IndexStmt.t }.
(** An item of a kind the server has no interface for. *)
Definition other : t := mk None None None None None None.
End StatementItem.

Module Statement.
Record t := mk {
  stmt : option StatementItem.t;
  stmt_location : option uinteger;
  stmt_len : option uinteger }.
End Statement.

(** ** Candidates ([goToDefinition.ts]) *)

Definition Resource := string.

Record Candidate := mkCandidate {
  definition : string;
  definitionLink : DefinitionLink }.

#[global] Instance Position_eq_dec : EqDecision Position.t.
Proof. solve_decision. Defined.
#[global] Instance Range_eq_dec : EqDecision Range.t.
Proof. solve_decision. Defined.
#[global] Instance LocationLink_eq_dec : EqDecision LocationLink.t.
Proof. solve_decision. Defined.
#[global] Instance Candidate_eq_dec : EqDecision Candidate.
Proof. solve_decision. Defined.

(** [Range.create(Position.create(0, 0), Position.create(0, 0))] *)
Definition zeroRange : Range.t :=
  Range.create (Position.create 0 0) (Position.create 0 0).

(** The link every extraction function builds: three arguments, so the
    fourth, [originSelectionRange], is [undefined]. *)
Definition fileLink (resource : Resource) : DefinitionLink :=
  LocationLink.create resource zeroRange zeroRange None.

(** The callback of [getCreateStmts]'s [flatMap]. *)
Definition createStmtCandidates (resource : Resource) (stmt : Statement.t)
  : list Candidate :=
  let schemaname :=
    Statement.stmt stmt ?.StatementItem.CreateStmt ?.CreateStmt.relation
      ?.CreateStmtRelation.schemaname in
  let relname :=
    Statement.stmt stmt ?.StatementItem.CreateStmt ?.CreateStmt.relation
      ?.CreateStmtRelation.relname in
  match schemaname, relname with
  | Some schemaname, Some relname =>
      [ {| definition := schemaname +:+ "." +:+ relname;
           definitionLink := fileLink resource |} ]
  | _, _ => []
  end.

Definition getCreateStmts (stmts : list Statement.t) (resource : Resource)
  : list Candidate :=
  stmts ≫= createStmtCandidates resource.

(** The callback of [getCompositeTypeStmts]'s [flatMap]. *)
Definition compositeTypeCandidates (resource : Resource) (stmt : Statement.t)
  : list Candidate :=
  let definition :=
    Statement.stmt stmt ?.StatementItem.CompositeTypeStmt
      ?.CompositeTypeStmt.typevar ?.CompositeTypeStmtTypevar.relname in
  match definition with
  | None => []
  | Some definition =>
      [ {| definition := definition; definitionLink := fileLink resource |} ]
  end.

Definition getCompositeTypeStmts (stmts : list Statement.t)
    (resource : Resource) : list Candidate :=
  stmts ≫= compositeTypeCandidates resource.

(** The inner callback of [getCreateFunctionStmts], one name component. *)
Definition funcnameCandidates (resource : Resource) (funcname : FuncName.t)
  : list Candidate :=
  let definition := FuncName.String funcname ?.FuncNameString.str in
  match definition with
  | None => []
  | Some definition =>
      [ {| definition := definition; definitionLink := fileLink resource |} ]
  end.

(** The outer callback of [getCreateFunctionStmts]. *)
Definition createFunctionCandidates (resource : Resource)
    (stmt : Statement.t) : list Candidate :=
  let funcnames :=
    Statement.stmt stmt ?.StatementItem.CreateFunctionStmt
      ?.CreateFunctionStmt.funcname in
  match funcnames with
  | None => []
  | Some funcnames =>
      if decide (length funcnames = 0) then []
      else funcnames ≫= funcnameCandidates resource
  end.

Definition getCreateFunctionStmts (stmts : list Statement.t)
    (resource : Resource) : list Candidate :=
  stmts ≫= createFunctionCandidates resource.

(** The list [updateFileDefinition] hands to the index: tables first, then
    composite types, then functions. *)
Definition createStmts (stmts : list Statement.t) (resource : Resource)
  : list Candidate :=
  getCreateStmts stmts resource
    ++ getCompositeTypeStmts stmts resource
    ++ getCreateFunctionStmts stmts resource.

(** The [space] argument of [getCreateFunctionStmts] is not read by its
    body, so the embedding does not carry it. *)

(** ** Text documents (vscode-languageserver-textdocument) *)

Module TextDocument.
Record t := mk { uri : DocumentUri; content : string }.

(** Offsets at which a line starts: 0, and the offset after every end
    of line, which is a line feed, a carriage return, or a carriage
    return followed by a line feed.  Offsets count the characters of the
    embedding's strings; they are the library's offsets (UTF-16 code
    units) on text in which every character is one such unit. *)
Fixpoint lineStarts (offset : nat) (s : string) : list nat :=
  match s with
  | EmptyString => []
  | String c rest =>
      if decide (c = "013"%char) then
        match rest with
        | String c' rest' =>
            if decide (c' = "010"%char)
            then S (S offset) :: lineStarts (S (S offset)) rest'
            else S offset :: lineStarts (S offset) rest
        | EmptyString => [S offset]
        end
      else if decide (c = "010"%char)
      then S offset :: lineStarts (S offset) rest
      else lineStarts (S offset) rest
  end.
Definition lineOffsets (doc : t) : list nat := 0 :: lineStarts 0 (content doc).

(** [offsetAt]: a position past the last line is the end of the text; a
    character past the end of the line is clamped to the line. *)
Definition offsetAt (doc : t) (position : Position.t) : nat :=
  let offsets := lineOffsets doc in
  match offsets !! Position.line position with
  | None => String.length (content doc)
  | Some lineOffset =>
      let nextLineOffset :=
        default (String.length (content doc))
                (offsets !! S (Position.line position)) in
      Nat.max (Nat.min (lineOffset + Position.character position)
                       nextLineOffset) lineOffset
  end.

(** [getText(range)]: the text between the two offsets of the range. *)
Definition getText (doc : t) (range : option Range.t) : string :=
  match range with
  | None => content doc
  | Some range =>
      let a := offsetAt doc (Range.start range) in
      let b := offsetAt doc (Range.end_ range) in
      String.substring (Nat.min a b) (Nat.max a b - Nat.min a b)
                       (content doc)
  end.
End TextDocument.

(** ** The host: file system, glob and parser ([fs], [glob], [libpg-query]) *)

Inductive Exn :=
| FsError (path : string)
| ParseError (message : string).

Inductive Completion (A : Type) :=
| Normal (a : A)
| Throw (e : Exn).
Arguments Normal {A} a.
Arguments Throw {A} e.

Module Query.
Record t := mk { stmts : option (list Statement.t) }.
End Query.

Record Host := mkHost {
  readFileSync : string → Completion string;
  parseQuery : string → Completion (option Query.t);
  glob : string → list string }.

(** [getStmtements] ([postgres/statement.ts]): a parse error becomes
    [undefined]. *)
Definition getStmtements (host : Host) (query : string)
  : option (list Statement.t) :=
  match parseQuery host query with
  | Normal q => q ?.Query.stmts
  | Throw _ => None
  end.

(** ** The definition map of a space *)

(** Modelled from the spec: the class behind [space.definitionMap]
    ([space.ts]) is missing from the sources; only its two calls,
    [updateCandidates] and [getDefinitionLinks], are there.  The design
    document describes it as one File Entry per source file, kept in
    file-processing order, with [replace] discarding a file's previous
    Declarations and installing the new list, and [lookup] returning every
    Declaration whose stored name equals the name form under exact string
    comparison (the empty list if none). *)
Module DefinitionMap.
Record t := mk { fileDefinitions : list (Resource * list Candidate) }.

Definition empty : t := mk [].

Fixpoint lookupFile (resource : Resource)
    (entries : list (Resource * list Candidate))
  : option (list Candidate) :=
  match entries with
  | [] => None
  | (r, candidates) :: entries =>
      if decide (r = resource) then Some candidates
      else lookupFile resource entries
  end.

(** [replace] on the entries: the entry of the file is overwritten where
    it stands; a file seen for the first time is added after the
    others. *)
Fixpoint replaceFile (resource : Resource) (candidates : list Candidate)
    (entries : list (Resource * list Candidate))
  : list (Resource * list Candidate) :=
  match entries with
  | [] => [(resource, candidates)]
  | (r, old) :: entries =>
      if decide (r = resource) then (resource, candidates) :: entries
      else (r, old) :: replaceFile resource candidates entries
  end.

Definition fileEntry (m : t) (resource : Resource)
  : option (list Candidate) :=
  lookupFile resource (fileDefinitions m).

(** [replace] *)
Definition updateCandidates (resource : Resource)
    (candidates : list Candidate) (m : t) : t :=
  mk (replaceFile resource candidates (fileDefinitions m)).

(** [lookup] *)
Definition getDefinitionLinks (m : t) (word : string)
  : list DefinitionLink :=
  definitionLink <$>
    filter (λ c, definition c = word) (fileDefinitions m ≫= snd).
End DefinitionMap.

(** ** Spaces, settings and requests *)

Module WorkspaceFolder.
Record t := mk { uri : DocumentUri; name : string }.
End WorkspaceFolder.

Module LanguageServerSettings.
Record t := mk {
  definitionFiles : option (list string);
  defaultSchema : string }.
End LanguageServerSettings.

(** The fields of [Space] the functions below use.  Console output is
    write-only and is not modelled. *)
Module Space.
Record t := mk {
  documents : gmap DocumentUri TextDocument.t;
  definitionMap : DefinitionMap.t;
  getDocumentSettings : Resource → LanguageServerSettings.t;
  getWorkSpaceFolder : Resource → option WorkspaceFolder.t }.

Definition withDefinitionMap (space : t) (m : DefinitionMap.t) : t :=
  mk (documents space) m (getDocumentSettings space)
     (getWorkSpaceFolder space).
End Space.

Module TextDocumentIdentifier.
Record t := mk { uri : DocumentUri }.
End TextDocumentIdentifier.

(** [DefinitionParams] and [HoverParams] have the same two fields. *)
Module TextDocumentPositionParams.
Record t := mk {
  textDocument : TextDocumentIdentifier.t;
  position : Position.t }.
End TextDocumentPositionParams.

(** The word helper of the server ([helpers], later [utilities/text]); its
    module is missing from the sources, so it is taken as it comes. *)
Record Helpers := mkHelpers {
  getWordRangeAtPosition : TextDocument.t → Position.t → option Range.t }.

(** ** Updating one file ([updateFileDefinition]) *)

(** [resource.replace(/^file:\/\//, "")] *)
Definition removeFileScheme (resource : Resource) : string :=
  if String.prefix "file://" resource
  then String.substring 7 (String.length resource - 7) resource
  else resource.

(** What [updateFileDefinition] does once [await parseQuery(text)] has
    settled: a rejected parse is rethrown at the [await]; a query without
    statements returns; otherwise the candidates of the three extraction
    functions replace the file's entry. *)
Definition afterParse (host : Host) (resource : Resource) (text : string)
    (space : Space.t) : Completion unit * Space.t :=
  match parseQuery host text with
  | Throw e => (Throw e, space)
  | Normal query =>
      match query ?.Query.stmts with
      | None => (Normal (), space)
      | Some stmts =>
          (Normal (),
           Space.withDefinitionMap space
             (DefinitionMap.updateCandidates resource
                (createStmts stmts resource) (Space.definitionMap space)))
      end
  end.

(** [updateFileDefinition]: there is no [try] in its body, so what
    [readFileSync] or [parseQuery] throws is what the caller gets. *)
Definition updateFileDefinition (host : Host) (resource : Resource)
    (space : Space.t) : Completion unit * Space.t :=
  match readFileSync host (removeFileScheme resource) with
  | Throw e => (Throw e, space)
  | Normal text => afterParse host resource text space
  end.

(** ** Loading a workspace ([loadDefinitionInWorkspace])

    [files.map(async (file) => ...)] calls the callback for every matched
    file, one after the other.  Each call runs up to its first suspension:
    it builds the resource, reads the file and hands the text to the
    parser.  A file that cannot be read rejects its own promise there and
    then; for the others a parse is in flight.  [Promise.all] waits for
    the promises but cancels none of them, and the [catch] around it
    swallows a rejection and moves on to the next pattern.  The parses
    settle in an order the code does not control, so a load is a sequence
    of steps of the relation below. *)

Record Task := mkTask { taskResource : Resource; taskText : string }.

Module Loader.
Record t := mk {
  space : Space.t;
  inFlight : list Task;      (* parses that have not settled yet *)
  patterns : list string }.  (* iterations of the [for] loop still to run *)
End Loader.

(** [`${workspace.uri}/${file}`] *)
Definition fileResource (workspace : WorkspaceFolder.t) (file : string)
  : Resource :=
  WorkspaceFolder.uri workspace +:+ "/" +:+ file.

(** The synchronous part of the [map] callback for one file. *)
Definition startFile (host : Host) (workspace : WorkspaceFolder.t)
    (file : string) : list Task :=
  let resource := fileResource workspace file in
  match readFileSync host (removeFileScheme resource) with
  | Throw _ => []
  | Normal text => [mkTask resource text]
  end.

(** [glob(filePattern)] followed by [files.map]. *)
Definition startPattern (host : Host) (workspace : WorkspaceFolder.t)
    (filePattern : string) : list Task :=
  glob host filePattern ≫= startFile host workspace.

(** The loop takes its next pattern ([step_pattern]; it may do so while
    parses of an earlier pattern are in flight, which is what happens
    after a rejection), or one parse in flight settles and the rest of
    [updateFileDefinition] runs for its file ([step_settle]).  The
    completion of that rest is dropped: a rejection ends in the [catch]. *)
Inductive load_step (host : Host) (workspace : WorkspaceFolder.t)
  : Loader.t → Loader.t → Prop :=
| step_pattern space inFlight filePattern patterns :
    load_step host workspace
      (Loader.mk space inFlight (filePattern :: patterns))
      (Loader.mk space (inFlight ++ startPattern host workspace filePattern)
                 patterns)
| step_settle space before task after patterns :
    load_step host workspace
      (Loader.mk space (before ++ task :: after) patterns)
      (Loader.mk
         (afterParse host (taskResource task) (taskText task) space).2
         (before ++ after) patterns).

(** The patterns the loop runs over: none when [settings.definitionFiles]
    is not set. *)
Definition definitionFilePatterns (space : Space.t) (resource : Resource)
  : list string :=
  default [] (LanguageServerSettings.definitionFiles
                (Space.getDocumentSettings space resource)).

(** [loadDefinitionInWorkspace space resource final]: the load started for
    [resource] has run its loop to the end, every parse has settled, and
    the space is [final].  Without a workspace folder the function returns
    at once. *)
Definition loadDefinitionInWorkspace (host : Host) (space : Space.t)
    (resource : Resource) (final : Space.t) : Prop :=
  match Space.getWorkSpaceFolder space resource with
  | None => final = space
  | Some workspace =>
      rtc (load_step host workspace)
          (Loader.mk space [] (definitionFilePatterns space resource))
          (Loader.mk final [] [])
  end.

(** One schedule, as a function: every parse settles in the order in which
    it was started. *)
Definition settleInOrder (host : Host) (tasks : list Task) (space : Space.t)
  : Space.t :=
  foldl (λ space task,
           (afterParse host (taskResource task) (taskText task) space).2)
        space tasks.

Definition loadInOrder (host : Host) (space : Space.t) (resource : Resource)
  : Space.t :=
  match Space.getWorkSpaceFolder space resource with
  | None => space
  | Some workspace =>
      foldl (λ space filePattern,
               settleInOrder host (startPattern host workspace filePattern)
                             space)
            space (definitionFilePatterns space resource)
  end.

(** ** Go to definition ([getDefinitionLinks]) *)

Definition getDefinitionLinks (helpers : Helpers) (space : Space.t)
    (params : TextDocumentPositionParams.t) : option (list DefinitionLink) :=
  let uri :=
    TextDocumentIdentifier.uri
      (TextDocumentPositionParams.textDocument params) in
  match Space.documents space !! uri with
  | None => None
  | Some document =>
      match getWordRangeAtPosition helpers document
              (TextDocumentPositionParams.position params) with
      | None => None
      | Some wordRange =>
          let word := TextDocument.getText document (Some wordRange) in
          Some (DefinitionMap.getDefinitionLinks
                  (Space.definitionMap space) word)
      end
  end.

(** ** The resolve operation as the design document words it

    These definitions follow the text of the design document (sections 4.1
    and 4.4), not the code; they are what [getDefinitionLinks] is compared
    with. *)
Module DesignDoc.
Definition toLowerAscii (c : ascii) : ascii :=
  let n := nat_of_ascii c in
  if bool_decide (65 ≤ n ≤ 90)%nat then ascii_of_nat (n + 32) else c.

Fixpoint toLowerCase (s : string) : string :=
  match s with
  | EmptyString => EmptyString
  | String c rest => String (toLowerAscii c) (toLowerCase rest)
  end.

Definition doubleQuote : ascii := ascii_of_nat 34.

(** A part wrapped in one level of double quotes, without them. *)
Definition unquote (part : string) : option string :=
  match part with
  | String c rest =>
      let n := String.length rest in
      if bool_decide (c = doubleQuote ∧ (1 ≤ n)%nat
                      ∧ String.get (n - 1) rest = Some doubleQuote)
      then Some (String.substring 0 (n - 1) rest)
      else None
  | EmptyString => None
  end.

(** Quoting suppresses case folding; an unquoted part is tried as
    written and lower-cased. *)
Definition partForms (part : string) : list string :=
  match unquote part with
  | Some inner => [inner]
  | None => [part; toLowerCase part]
  end.

(** The token split at its first [.] separator, if it has one. *)
Fixpoint splitSchema (token : string) : string * option string :=
  match token with
  | EmptyString => (EmptyString, None)
  | String c rest =>
      if decide (c = "."%char) then (EmptyString, Some rest)
      else let '(head, tail) := splitSchema rest in (String c head, tail)
  end.

(** Section 4.1: the ordered, deduplicated forms of a cursor token.  A
    token without separator is tried bare and under the default schema;
    the document does not fix which of the two comes first, and nothing
    below depends on it. *)
Definition identifierCandidates (defaultSchema token : string)
  : list string :=
  if decide (token = EmptyString) then []
  else
    match splitSchema token with
    | (name, None) =>
        let names := partForms name in
        remove_dups
          (names ++ ((λ n, defaultSchema +:+ "." +:+ n) <$> names))
    | (schema, Some name) =>
        remove_dups
          (partForms schema ≫= λ s,
             (λ n, s +:+ "." +:+ n) <$> partForms name)
    end.

(** Section 4.4: the location list of the first form with a non-empty
    match; the empty list when no form matches. *)
Fixpoint firstMatch (m : DefinitionMap.t) (forms : list string)
  : list DefinitionLink :=
  match forms with
  | [] => []
  | form :: forms =>
      match DefinitionMap.getDefinitionLinks m form with
      | [] => firstMatch m forms
      | links => links
      end
  end.

Definition resolve (m : DefinitionMap.t) (defaultSchema token : string)
  : list DefinitionLink :=
  firstMatch m (identifierCandidates defaultSchema token).
End DesignDoc.

(** ** Hover ([services/hover.ts]) *)

Module MarkupKind.
Inductive t := PlainText | Markdown.
End MarkupKind.

Module MarkupContent.
Record t := mk { kind : MarkupKind.t; value : string }.
End MarkupContent.

Module Hover.
Record t := mk { contents : MarkupContent.t }.
End Hover.

(** What [hover.ts] imports from modules that are missing from the
    sources: the four database queries with their text makers, the two
    word utilities and the Markdown wrapper.  The queries answer from the
    live database through the pool; the logger they also take is left
    out. *)
Record HoverServices := mkHoverServices {
  PostgresPool : Type;
  TableDefinition : Type;
  ViewDefinition : Type;
  FunctionDefinition : Type;
  TypeDefinition : Type;
  queryTableDefinitions :
    PostgresPool → option string → string → string → list TableDefinition;
  makeTableDefinitionText : TableDefinition → string;
  queryViewDefinitions :
    PostgresPool → option string → string → string → list ViewDefinition;
  makeViewDefinitionText : ViewDefinition → string;
  queryFunctionDefinitions :
    PostgresPool → option string → string → string
    → list FunctionDefinition;
  makeFunctionDefinitionText : FunctionDefinition → string;
  queryTypeDefinitions :
    PostgresPool → option string → string → string → list TypeDefinition;
  makeTypeDefinitionText : TypeDefinition → string;
  sanitizeWordCandidates : string → list string;
  separateSchemaFromCandidate : string → option (option string * string);
  makePostgresCodeMarkdown : string → string }.

Definition newline : string := String "010"%char EmptyString.

Definition makeHover (svc : HoverServices) (definitionTexts : list string)
  : option Hover.t :=
  if decide (length definitionTexts = 0) then None
  else
    let code := String.concat (newline +:+ newline) definitionTexts in
    Some {| Hover.contents :=
              {| MarkupContent.kind := MarkupKind.Markdown;
                 MarkupContent.value := makePostgresCodeMarkdown svc code |}
         |}.

Definition getTableHover (svc : HoverServices) (pgPool : PostgresPool svc)
    (schema : option string) (tableName defaultSchema : string)
  : option Hover.t :=
  let definitions :=
    queryTableDefinitions svc pgPool schema defaultSchema tableName in
  makeHover svc (makeTableDefinitionText svc <$> definitions).

Definition getViewHover (svc : HoverServices) (pgPool : PostgresPool svc)
    (schema : option string) (tableName defaultSchema : string)
  : option Hover.t :=
  let definitions :=
    queryViewDefinitions svc pgPool schema defaultSchema tableName in
  makeHover svc (makeViewDefinitionText svc <$> definitions).

Definition getFunctionHover (svc : HoverServices) (pgPool : PostgresPool svc)
    (schema : option string) (functionName defaultSchema : string)
  : option Hover.t :=
  let definitions :=
    queryFunctionDefinitions svc pgPool schema defaultSchema functionName in
  makeHover svc (makeFunctionDefinitionText svc <$> definitions).

Definition getTypeHover (svc : HoverServices) (pgPool : PostgresPool svc)
    (schema : option string) (typeName defaultSchema : string)
  : option Hover.t :=
  let definitions :=
    queryTypeDefinitions svc pgPool schema defaultSchema typeName in
  makeHover svc (makeTypeDefinitionText svc <$> definitions).

(** The [for] loop of [getHover] over the sanitized word candidates. *)
Fixpoint hoverOfCandidates (svc : HoverServices) (pgPool : PostgresPool svc)
    (defaultSchema : string) (sanitizedWordCandidates : list string)
  : option Hover.t :=
  match sanitizedWordCandidates with
  | [] => None
  | wordCandidate :: rest =>
      match separateSchemaFromCandidate svc wordCandidate with
      | None => hoverOfCandidates svc pgPool defaultSchema rest
      | Some (schema, candidate) =>
          match getTableHover svc pgPool schema candidate defaultSchema with
          | Some tableHover => Some tableHover
          | None =>
          match getViewHover svc pgPool schema candidate defaultSchema with
          | Some viewHover => Some viewHover
          | None =>
          match getFunctionHover svc pgPool schema candidate defaultSchema with
          | Some functionHover => Some functionHover
          | None =>
          match getTypeHover svc pgPool schema candidate defaultSchema with
          | Some typeHover => Some typeHover
          | None => hoverOfCandidates svc pgPool defaultSchema rest
          end end end end
      end
  end.

Definition getHover (svc : HoverServices) (helpers : Helpers)
    (pgPool : PostgresPool svc) (params : TextDocumentPositionParams.t)
    (document : TextDocument.t) (defaultSchema : string) : option Hover.t :=
  match getWordRangeAtPosition helpers document
          (TextDocumentPositionParams.position params) with
  | None => None
  | Some wordRange =>
      let word := TextDocument.getText document (Some wordRange) in
      let sanitizedWordCandidates := sanitizeWordCandidates svc word in
      hoverOfCandidates svc pgPool defaultSchema sanitizedWordCandidates
  end.

(** The checks of a hover request laid out flat: for each candidate that
    separates into schema and name, the definition texts of the table, the
    view, the function and the type query, in this order. *)
Definition candidateChecks (svc : HoverServices) (pgPool : PostgresPool svc)
    (defaultSchema wordCandidate : string) : list (list string) :=
  match separateSchemaFromCandidate svc wordCandidate with
  | None => []
  | Some (schema, candidate) =>
      [ makeTableDefinitionText svc <$>
          queryTableDefinitions svc pgPool schema defaultSchema candidate;
        makeViewDefinitionText svc <$>
          queryViewDefinitions svc pgPool schema defaultSchema candidate;
        makeFunctionDefinitionText svc <$>
          queryFunctionDefinitions svc pgPool schema defaultSchema candidate;
        makeTypeDefinitionText svc <$>
          queryTypeDefinitions svc pgPool schema defaultSchema candidate ]
  end.

Definition hoverChecks (svc : HoverServices) (pgPool : PostgresPool svc)
    (defaultSchema word : string) : list (list string) :=
  sanitizeWordCandidates svc word ≫= candidateChecks svc pgPool defaultSchema.

(** ** Document events ([server/handlers.ts]) *)

Module Diagnostic.
Record t := mk { range : Range.t; message : string }.
End Diagnostic.

Module PublishDiagnosticsParams.
Record t := mk { uri : DocumentUri; diagnostics : list Diagnostic.t }.
End PublishDiagnosticsParams.

(** The connection, as far as the close handler uses it: the diagnostics
    sent to the client so far. *)
Module Connection.
Record t := mk { sent : list PublishDiagnosticsParams.t }.
Definition sendDiagnostics (params : PublishDiagnosticsParams.t) (c : t)
  : t := mk (sent c ++ [params]).
End Connection.

Module TextDocumentChangeEvent.
Record t := mk { document : TextDocument.t }.
End TextDocumentChangeEvent.

(** The objects a [Handlers] instance holds.  The classes of the settings
    manager and of the definitions manager are missing from the sources:
    their states are the types [S] and [D], and [delete] is the settings
    manager's method of that name, acting on its own state. *)
Module Handlers.
Record t (S D : Type) := mk {
  connection : Connection.t;
  documents : gmap DocumentUri TextDocument.t;
  settingsManager : S;
  definitionsManager : D }.
Arguments mk {S D}.
Arguments connection {S D}.
Arguments documents {S D}.
Arguments settingsManager {S D}.
Arguments definitionsManager {S D}.

Definition onDidClose {S D : Type} (delete : DocumentUri → S → S)
    (handlers : t S D) (event : TextDocumentChangeEvent.t) : t S D :=
  let uri := TextDocument.uri (TextDocumentChangeEvent.document event) in
  mk (Connection.sendDiagnostics
        {| PublishDiagnosticsParams.uri := uri;
           PublishDiagnosticsParams.diagnostics := [] |}
        (connection handlers))
     (documents handlers)
     (delete uri (settingsManager handlers))
     (definitionsManager handlers).
End Handlers.

(** ** Concrete inputs

    Statements as the parser returns them, and a small workspace with
    three definition files, one of which does not parse. *)
Module Sample.
Definition statement (item : StatementItem.t) : Statement.t :=
  Statement.mk (Some item) None None.

Definition table (schemaname : option string) (relname : string)
  : Statement.t :=
  statement
    (StatementItem.mk
       (Some (CreateStmt.mk
                (Some (CreateStmtRelation.mk schemaname (Some relname)
                                             (Some 13)))))
       None None None None None).

Definition view (schemaname : option string) (relname : string)
  : Statement.t :=
  statement
    (StatementItem.mk None
       (Some (ViewStmt.mk
                (Some (ViewStmtRelation.mk schemaname (Some relname)
                                           (Some 12)))))
       None None None None).


Definition name (s : string) : FuncName.t :=
  FuncName.mk (Some (FuncNameString.mk (Some s))).

Definition function (is_procedure : option bool) (names : list string)
  : Statement.t :=
  statement
    (StatementItem.mk None None None
       (Some (CreateFunctionStmt.mk is_procedure (Some false)
                                    (Some (name <$> names))))
       None None).

Definition trigger (trigname relname : string) : Statement.t :=
  statement
    (StatementItem.mk None None None None
       (Some (CreateTrigStmt.mk (Some trigname)
                (Some (CreateTrigStmtRelation.mk (Some relname) (Some true)
                                                 (Some "p")))
                (Some [name "notify"]) (Some true) (Some 4%Z)))
       None).

Definition index (idxname : string) : Statement.t :=
  statement
    (StatementItem.mk None None None None None
       (Some (IndexStmt.mk (Some idxname)))).

Definition orders : Statement.t := table (Some "public") "orders".
Definition auditOrders : Statement.t := trigger "audit_orders" "orders".
Definition ordersByDay : Statement.t := index "orders_by_day".
Definition appTotal : Statement.t := function None ["app"; "total"].

(** A statement of a kind the server knows nothing of, and statements
    with fields missing. *)
Definition selectOne : Statement.t := statement StatementItem.other.
Definition bare : Statement.t := Statement.mk None None None.
Definition tableWithoutRelation : Statement.t :=
  statement
    (StatementItem.mk (Some (CreateStmt.mk None)) None None None None None).

Definition ordersSql : string := "CREATE TABLE public.orders (id int);".
Definition brokenSql : string := "CREATE TABLE (".
Definition functionsSql : string :=
  "CREATE FUNCTION f() RETURNS int LANGUAGE sql AS 'SELECT 1';".

Definition files : list (string * string) :=
  [ ("/ws/orders.sql", ordersSql);
    ("/ws/broken.sql", brokenSql);
    ("/ws/functions.sql", functionsSql) ].

Definition parses : list (string * list Statement.t) :=
  [ (ordersSql, [orders]);
    (functionsSql, [function None ["f"]]) ].

Fixpoint assoc {A : Type} (key : string) (l : list (string * A))
  : option A :=
  match l with
  | [] => None
  | (k, a) :: l => if decide (k = key) then Some a else assoc key l
  end.

Definition host : Host :=
  {| readFileSync path :=
       match assoc path files with
       | Some text => Normal text
       | None => Throw (FsError path)
       end;
     parseQuery text :=
       match assoc text parses with
       | Some stmts => Normal (Some (Query.mk (Some stmts)))
       | None => Throw (ParseError "syntax error")
       end;
     glob filePattern :=
       if decide (filePattern = "*.sql")
       then ["orders.sql"; "broken.sql"; "functions.sql"]
       else [] |}.

Definition workspace : WorkspaceFolder.t :=
  WorkspaceFolder.mk "file:///ws" "ws".

Definition settings : LanguageServerSettings.t :=
  LanguageServerSettings.mk (Some ["*.sql"]) "public".

Definition queryDocument : TextDocument.t :=
  TextDocument.mk "file:///ws/query.sql" "SELECT * FROM orders".

Definition emptySpace : Space.t :=
  {| Space.documents := {[ "file:///ws/query.sql" := queryDocument ]};
     Space.definitionMap := DefinitionMap.empty;
     Space.getDocumentSettings _ := settings;
     Space.getWorkSpaceFolder _ := Some workspace |}.

(** The space once the workspace has been loaded. *)
Definition loadedSpace : Space.t :=
  loadInOrder host emptySpace "file:///ws/query.sql".

(** A stand-in for the word helper on [queryDocument]: the word under a
    cursor on the last token of its line. *)
Definition helpers : Helpers :=
  {| getWordRangeAtPosition document position :=
       if bool_decide (Position.line position = 0
                       ∧ 14 ≤ Position.character position ≤ 20)%nat
       then Some (Range.create (Position.create 0 14)
                               (Position.create 0 20))
       else None |}.

Definition onOrders : TextDocumentPositionParams.t :=
  {| TextDocumentPositionParams.textDocument :=
       TextDocumentIdentifier.mk "file:///ws/query.sql";
     TextDocumentPositionParams.position := Position.create 0 16 |}.
(** The same files after [orders.sql] has been edited into text that does
    not parse. *)
Definition editedHost : Host :=
  {| readFileSync path :=
       if decide (path = "/ws/orders.sql") then Normal brokenSql
       else readFileSync host path;
     parseQuery := parseQuery host;
     glob := glob host |}.

(** A database that knows one table, [public.orders], and one function,
    [total]; words are taken as they are and split at no separator. *)
Definition hoverServices : HoverServices :=
  {| PostgresPool := unit;
     TableDefinition := string;
     ViewDefinition := string;
     FunctionDefinition := string;
     TypeDefinition := string;
     queryTableDefinitions _ schema defaultSchema tableName :=
       if bool_decide (default defaultSchema schema = "public"
                       ∧ tableName = "orders")
       then ["TABLE public.orders (id int)"] else [];
     makeTableDefinitionText definition := definition;
     queryViewDefinitions _ _ _ _ := [];
     makeViewDefinitionText definition := definition;
     queryFunctionDefinitions _ _ _ functionName :=
       if decide (functionName = "total")
       then ["FUNCTION total() RETURNS int"] else [];
     makeFunctionDefinitionText definition := definition;
     queryTypeDefinitions _ _ _ _ := [];
     makeTypeDefinitionText definition := definition;
     sanitizeWordCandidates word := [word];
     separateSchemaFromCandidate candidate := Some (None, candidate);
     makePostgresCodeMarkdown code := code |}.
End Sample.

(** ** Statement shapes

    The fields the extraction functions look for, named once so that the
    statements below can speak of them. *)

Definition tableRelation (stmt : Statement.t) : option CreateStmtRelation.t :=
  Statement.stmt stmt ?.StatementItem.CreateStmt ?.CreateStmt.relation.

Definition typeTypevar (stmt : Statement.t)
  : option CompositeTypeStmtTypevar.t :=
  Statement.stmt stmt ?.StatementItem.CompositeTypeStmt
    ?.CompositeTypeStmt.typevar.

Definition functionNames (stmt : Statement.t) : option (list FuncName.t) :=
  Statement.stmt stmt ?.StatementItem.CreateFunctionStmt
    ?.CreateFunctionStmt.funcname.

(** The string of a name component, [funcname?.String?.str]. *)
Definition nameString (funcname : FuncName.t) : option string :=
  FuncName.String funcname ?.FuncNameString.str.

(** The statement carries none of the three items the extraction reads. *)
Definition notExtracted (stmt : Statement.t) : Prop :=
  Statement.stmt stmt ?.StatementItem.CreateStmt = None
  ∧ Statement.stmt stmt ?.StatementItem.CompositeTypeStmt = None
  ∧ Statement.stmt stmt ?.StatementItem.CreateFunctionStmt = None.

Definition isViewStmt (stmt : Statement.t) : Prop :=
  notExtracted stmt
  ∧ is_Some (Statement.stmt stmt ?.StatementItem.ViewStmt).

Definition isTriggerOrIndexStmt (stmt : Statement.t) : Prop :=
  notExtracted stmt
  ∧ (is_Some (Statement.stmt stmt ?.StatementItem.CreateTrigStmt)
     ∨ is_Some (Statement.stmt stmt ?.StatementItem.IndexStmt)).

(** The fields a table, a composite type or a function declaration needs
    are all there. *)
Definition hasTableFields (stmt : Statement.t) : Prop :=
  is_Some (tableRelation stmt ?.CreateStmtRelation.schemaname)
  ∧ is_Some (tableRelation stmt ?.CreateStmtRelation.relname).

Definition hasTypeFields (stmt : Statement.t) : Prop :=
  is_Some (typeTypevar stmt ?.CompositeTypeStmtTypevar.relname).

Definition hasFunctionFields (stmt : Statement.t) : Prop :=
  Exists (λ funcname, is_Some (nameString funcname))
         (default [] (functionNames stmt)).

(** The statement, alone in a file, is indexed once, under [name]. *)
Definition indexedOnceAs (name : string) (stmt : Statement.t)
    (resource : Resource) : Prop :=
  ∃ link, createStmts [stmt] resource = [mkCandidate name link].

#[global] Instance notExtracted_dec stmt : Decision (notExtracted stmt).
Proof. unfold notExtracted. apply _. Defined.
#[global] Instance isViewStmt_dec stmt : Decision (isViewStmt stmt).
Proof. unfold isViewStmt. apply _. Defined.
#[global] Instance isTriggerOrIndexStmt_dec stmt :
  Decision (isTriggerOrIndexStmt stmt).
Proof. unfold isTriggerOrIndexStmt. apply _. Defined.
#[global] Instance hasTableFields_dec stmt : Decision (hasTableFields stmt).
Proof. unfold hasTableFields. apply _. Defined.
#[global] Instance hasTypeFields_dec stmt : Decision (hasTypeFields stmt).
Proof. unfold hasTypeFields. apply _. Defined.
#[global] Instance hasFunctionFields_dec stmt :
  Decision (hasFunctionFields stmt).
Proof. unfold hasFunctionFields. apply _. Defined.


(** The design document's reading of a protocol link: three spans, all at
    the start of the file. *)
Definition allSpansAtOrigin (link : DefinitionLink) : Prop :=
  LocationLink.targetRange link = zeroRange
  ∧ LocationLink.targetSelectionRange link = zeroRange
  ∧ LocationLink.originSelectionRange link = Some zeroRange.

(** The resolve operation as the design document states it, for one
    space: every request on an open document with a word under the cursor
    is answered by the first candidate form of the word that matches. *)
Definition resolvesByCandidates (helpers : Helpers) (space : Space.t)
    (defaultSchema : string) : Prop :=
  ∀ params document wordRange,
    Space.documents space
      !! TextDocumentIdentifier.uri
           (TextDocumentPositionParams.textDocument params)
    = Some document →
    getWordRangeAtPosition helpers document
      (TextDocumentPositionParams.position params) = Some wordRange →
    getDefinitionLinks helpers space params
    = Some (DesignDoc.resolve (Space.definitionMap space) defaultSchema
              (TextDocument.getText document (Some wordRange))).

(** What a load keeps true of one readable, parsable file with statements
    [stmts]: every parse in flight was started on the text its file has,
    and the file is still to be matched, or its parse is in flight, or its
    candidates are in the index. *)
Definition loadInvariant (host : Host) (workspace : WorkspaceFolder.t)
    (file text : string) (stmts : list Statement.t) (st : Loader.t) : Prop :=
  Forall (λ task, readFileSync host (removeFileScheme (taskResource task))
                  = Normal (taskText task)) (Loader.inFlight st)
  ∧ ((∃ filePattern, filePattern ∈ Loader.patterns st
                     ∧ file ∈ glob host filePattern)
     ∨ mkTask (fileResource workspace file) text ∈ Loader.inFlight st
     ∨ DefinitionMap.fileEntry (Space.definitionMap (Loader.space st))
         (fileResource workspace file)
       = Some (createStmts stmts (fileResource workspace file))).

(** ** Further notions for updates and loads *)

(** The text of the file neither reads nor parses to a statement list: an
    update of the file has nothing to install. *)
Definition noStatements (host : Host) (resource : Resource) : Prop :=
  match readFileSync host (removeFileScheme resource) with
  | Throw _ => True
  | Normal text => getStmtements host text = None
  end.

(** What a load keeps true of a file [other] that it has no statements
    for: the parses in flight were started on the text of their files, the
    patterns still to run are among those of the settings, and the entry
    of the file and the open documents are those of the space the load
    began with. *)
Definition loadFrame (host : Host) (patterns : list string)
    (other : Resource) (space : Space.t) (st : Loader.t) : Prop :=
  Forall (λ task, readFileSync host (removeFileScheme (taskResource task))
                  = Normal (taskText task)) (Loader.inFlight st)
  ∧ Forall (λ task, taskResource task = other → noStatements host other)
           (Loader.inFlight st)
  ∧ (∀ filePattern, filePattern ∈ Loader.patterns st →
                    filePattern ∈ patterns)
  ∧ DefinitionMap.fileEntry (Space.definitionMap (Loader.space st)) other
    = DefinitionMap.fileEntry (Space.definitionMap space) other
  ∧ Space.documents (Loader.space st) = Space.documents space.

(** Another schedule, as a function: the parses of a pattern settle in
    the reverse of the order in which they were started. *)
Definition loadReversed (host : Host) (space : Space.t) (resource : Resource)
  : Space.t :=
  match Space.getWorkSpaceFolder space resource with
  | None => space
  | Some workspace =>
      foldl (λ space filePattern,
               settleInOrder host
                 (reverse (startPattern host workspace filePattern)) space)
            space (definitionFilePatterns space resource)
  end.

(** More concrete inputs: a space without definition files, and a
    document that consists of one qualified name. *)
Module MoreSamples.
Definition unconfiguredSpace : Space.t :=
  {| Space.documents := ∅;
     Space.definitionMap := DefinitionMap.empty;
     Space.getDocumentSettings _ :=
       LanguageServerSettings.mk None "public";
     Space.getWorkSpaceFolder _ := Some Sample.workspace |}.

Definition nameDocument : TextDocument.t :=
  TextDocument.mk "file:///ws/name.sql" "public.orders".

Definition nameSpace : Space.t :=
  {| Space.documents := {[ "file:///ws/name.sql" := nameDocument ]};
     Space.definitionMap := DefinitionMap.empty;
     Space.getDocumentSettings _ := Sample.settings;
     Space.getWorkSpaceFolder _ := Some Sample.workspace |}.

(** A stand-in for the word helper: the whole first line. *)
Definition lineHelpers : Helpers :=
  {| getWordRangeAtPosition document position :=
       if decide (Position.line position = 0)
       then Some (Range.create (Position.create 0 0)
                               (Position.create 0 13))
       else None |}.

Definition onName : TextDocumentPositionParams.t :=
  {| TextDocumentPositionParams.textDocument :=
       TextDocumentIdentifier.mk "file:///ws/name.sql";
     TextDocumentPositionParams.position := Position.create 0 3 |}.

(** The sample workspace loaded with its parses settling last first. *)
Definition reversedSpace : Space.t :=
  loadReversed Sample.host Sample.emptySpace "file:///ws/query.sql".


End MoreSamples.

(** ** The other handlers of the server ([Handlers])

    The handlers reach the database pools, the validator, the settings
    manager and the definitions manager through calls into modules that
    are missing from the sources.  These calls are the fields of
    [ServerServices]; a call that may change the object it is made on
    returns the new state of that object with its result.  The calls are
    taken to return; logging is left out. *)

Module FileChangeType.
Inductive t := Created | Changed | Deleted.
End FileChangeType.

#[global] Instance FileChangeType_eq_dec : EqDecision FileChangeType.t.
Proof. solve_decision. Defined.

Module FileEvent.
Record t := mk { uri : DocumentUri; type_ : FileChangeType.t }.
End FileEvent.

(** The options [validate] hands to [validateTextDocument]. *)
Module ValidationOptions.
Record t := mk {
  isComplete : bool;
  hasDiagnosticRelatedInformationCapability : bool }.
End ValidationOptions.

Record ServerServices (S D P : Type) := mkServerServices {
  hover : HoverServices;
  helpers : Helpers;
  CompletionItem : Type;
  disableLanguageServer : TextDocument.t → bool;
  disableValidation : TextDocument.t → bool;
  readTextDocumentFromUri : DocumentUri → TextDocument.t;
  getPool : P → LanguageServerSettings.t → option (PostgresPool hover) * P;
  validateTextDocument :
    PostgresPool hover → TextDocument.t → ValidationOptions.t
    → option (list Diagnostic.t);
  getCompletionItems :
    PostgresPool hover → TextDocumentPositionParams.t → TextDocument.t
    → string → option (list CompletionItem);
  settingsGet : DocumentUri → S → LanguageServerSettings.t * S;
  settingsDelete : DocumentUri → S → S;
  settingsReset : LanguageServerSettings.t → S → S;
  settingsGetWorkspaceFolder :
    DocumentUri → S → option WorkspaceFolder.t * S;
  settingsIsDefinitionTarget : DocumentUri → S → bool * S;
  hasWorkspaceFolder : D → WorkspaceFolder.t → bool;
  loadWorkspaceDefinitions :
    WorkspaceFolder.t → LanguageServerSettings.t → D → D;
  hasFileDefinitions : D → DocumentUri → bool;
  updateFileDefinitions :
    TextDocument.t → string → D → option (list Candidate) * D;
  managerDefinitionLinks :
    D → TextDocumentPositionParams.t → TextDocument.t
    → option (list DefinitionLink) * D }.
Arguments hover {S D P}.
Arguments helpers {S D P}.
Arguments CompletionItem {S D P}.
Arguments disableLanguageServer {S D P}.
Arguments disableValidation {S D P}.
Arguments readTextDocumentFromUri {S D P}.
Arguments getPool {S D P}.
Arguments validateTextDocument {S D P}.
Arguments getCompletionItems {S D P}.
Arguments settingsGet {S D P}.
Arguments settingsDelete {S D P}.
Arguments settingsReset {S D P}.
Arguments settingsGetWorkspaceFolder {S D P}.
Arguments settingsIsDefinitionTarget {S D P}.
Arguments hasWorkspaceFolder {S D P}.
Arguments loadWorkspaceDefinitions {S D P}.
Arguments hasFileDefinitions {S D P}.
Arguments updateFileDefinitions {S D P}.
Arguments managerDefinitionLinks {S D P}.

Module Server.
(** A [Handlers] instance with the two members the close handler does not
    use: the pools and the options. *)
Record t (S D P : Type) := mk {
  handlers : Handlers.t S D;
  pgPools : P;
  hasDiagnosticRelatedInformationCapability : bool }.
Arguments mk {S D P}.
Arguments handlers {S D P}.
Arguments pgPools {S D P}.
Arguments hasDiagnosticRelatedInformationCapability {S D P}.

Section ServerHandlers.
Context {S D P : Type} (svc : ServerServices S D P).

Definition withSettings (st : t S D P) (settingsManager : S) : t S D P :=
  mk (Handlers.mk (Handlers.connection (handlers st))
                  (Handlers.documents (handlers st))
                  settingsManager
                  (Handlers.definitionsManager (handlers st)))
     (pgPools st) (hasDiagnosticRelatedInformationCapability st).

Definition withDefinitions (st : t S D P) (definitionsManager : D)
  : t S D P :=
  mk (Handlers.mk (Handlers.connection (handlers st))
                  (Handlers.documents (handlers st))
                  (Handlers.settingsManager (handlers st))
                  definitionsManager)
     (pgPools st) (hasDiagnosticRelatedInformationCapability st).

Definition withPools (st : t S D P) (pools : P) : t S D P :=
  mk (handlers st) pools (hasDiagnosticRelatedInformationCapability st).

(** [this.connection.sendDiagnostics(params)] *)
Definition sendDiagnostics (params : PublishDiagnosticsParams.t)
    (st : t S D P) : t S D P :=
  mk (Handlers.mk (Connection.sendDiagnostics params
                     (Handlers.connection (handlers st)))
                  (Handlers.documents (handlers st))
                  (Handlers.settingsManager (handlers st))
                  (Handlers.definitionsManager (handlers st)))
     (pgPools st) (hasDiagnosticRelatedInformationCapability st).

(** [await this.settingsManager.get(uri)] followed by
    [getPool(this.pgPools, settings, this.logger)]. *)
Definition settingsAndPool (uri : DocumentUri) (st : t S D P)
  : LanguageServerSettings.t * option (PostgresPool (hover svc)) * t S D P :=
  let '(settings, settingsManager) :=
    settingsGet svc uri (Handlers.settingsManager (handlers st)) in
  let '(pgPool, pools) := getPool svc (pgPools st) settings in
  (settings, pgPool, withPools (withSettings st settingsManager) pools).

Definition validate (textDocument : TextDocument.t) (isComplete : bool)
    (st : t S D P) : option (list Diagnostic.t) * t S D P :=
  let '(diagnostics, st) :=
    if disableValidation svc textDocument then (None, st)
    else
      let '(settings, pgPool, st) :=
        settingsAndPool (TextDocument.uri textDocument) st in
      match pgPool with
      | None => (None, st)
      | Some pgPool =>
          (validateTextDocument svc pgPool textDocument
             (ValidationOptions.mk isComplete
                (hasDiagnosticRelatedInformationCapability st)),
           st)
      end in
  (diagnostics,
   sendDiagnostics
     {| PublishDiagnosticsParams.uri := TextDocument.uri textDocument;
        PublishDiagnosticsParams.diagnostics := default [] diagnostics |}
     st).

(** [this.documents.all()].  The library lists the documents in the
    order in which they were opened; the map here does not keep that
    order, so nothing below depends on it. *)
Definition allDocuments (st : t S D P) : list TextDocument.t :=
  (map_to_list (Handlers.documents (handlers st))).*2.

(** [for (const document of this.documents.all()) await
    this.validate(document)] *)
Definition validateAll (st : t S D P) : t S D P :=
  foldl (λ st document, (validate document false st).2) st
        (allDocuments st).

Definition onDidChangeContent (event : TextDocumentChangeEvent.t)
    (st : t S D P) : t S D P :=
  (validate (TextDocumentChangeEvent.document event) false st).2.

Definition onDidClose (event : TextDocumentChangeEvent.t) (st : t S D P)
  : t S D P :=
  mk (Handlers.onDidClose (settingsDelete svc) (handlers st) event)
     (pgPools st) (hasDiagnosticRelatedInformationCapability st).

Definition onDidOpen (event : TextDocumentChangeEvent.t) (st : t S D P)
  : t S D P :=
  let uri := TextDocument.uri (TextDocumentChangeEvent.document event) in
  let '(workspaceFolder, settingsManager) :=
    settingsGetWorkspaceFolder svc uri
      (Handlers.settingsManager (handlers st)) in
  let st := withSettings st settingsManager in
  match workspaceFolder with
  | None => st
  | Some workspaceFolder =>
      if hasWorkspaceFolder svc
           (Handlers.definitionsManager (handlers st)) workspaceFolder
      then st
      else
        let '(settings, settingsManager) :=
          settingsGet svc uri (Handlers.settingsManager (handlers st)) in
        let st := withSettings st settingsManager in
        withDefinitions st
          (loadWorkspaceDefinitions svc workspaceFolder settings
             (Handlers.definitionsManager (handlers st)))
  end.

Definition onDidSave (event : TextDocumentChangeEvent.t) (st : t S D P)
  : t S D P :=
  let documentUri :=
    TextDocument.uri (TextDocumentChangeEvent.document event) in
  let textDocument := readTextDocumentFromUri svc documentUri in
  if disableLanguageServer svc textDocument then st
  else
    let st := (validate (TextDocumentChangeEvent.document event) true st).2 in
    let '(target, st) :=
      if hasFileDefinitions svc
           (Handlers.definitionsManager (handlers st)) documentUri
      then (true, st)
      else
        let '(target, settingsManager) :=
          settingsIsDefinitionTarget svc documentUri
            (Handlers.settingsManager (handlers st)) in
        (target, withSettings st settingsManager) in
    if target then
      let '(settings, settingsManager) :=
        settingsGet svc documentUri
          (Handlers.settingsManager (handlers st)) in
      let st := withSettings st settingsManager in
      let '(candidates, definitionsManager) :=
        updateFileDefinitions svc textDocument
          (LanguageServerSettings.defaultSchema settings)
          (Handlers.definitionsManager (handlers st)) in
      withDefinitions st definitionsManager
    else st.

(** The guard the three request handlers begin with. *)
Definition openDocument (params : TextDocumentPositionParams.t)
    (st : t S D P) : option TextDocument.t :=
  match Handlers.documents (handlers st)
          !! TextDocumentIdentifier.uri
               (TextDocumentPositionParams.textDocument params) with
  | None => None
  | Some textDocument =>
      if disableLanguageServer svc textDocument then None
      else Some textDocument
  end.

Definition onCompletion (params : TextDocumentPositionParams.t)
    (st : t S D P) : option (list (CompletionItem svc)) * t S D P :=
  match openDocument params st with
  | None => (None, st)
  | Some textDocument =>
      let '(settings, pgPool, st) :=
        settingsAndPool
          (TextDocumentIdentifier.uri
             (TextDocumentPositionParams.textDocument params)) st in
      match pgPool with
      | None => (None, st)
      | Some pgPool =>
          (getCompletionItems svc pgPool params textDocument
             (LanguageServerSettings.defaultSchema settings), st)
      end
  end.

(** [getDefinitionLinks(this.definitionsManager, params, textDocument,
    this.logger)] is handed the definitions manager itself, an object it
    can change: the manager it leaves behind is part of what it
    returns. *)
Definition onDefinition (params : TextDocumentPositionParams.t)
    (st : t S D P) : option (list DefinitionLink) * t S D P :=
  match openDocument params st with
  | None => (None, st)
  | Some textDocument =>
      let '(links, definitionsManager) :=
        managerDefinitionLinks svc
          (Handlers.definitionsManager (handlers st)) params textDocument in
      (links, withDefinitions st definitionsManager)
  end.

Definition onHover (params : TextDocumentPositionParams.t) (st : t S D P)
  : option Hover.t * t S D P :=
  match openDocument params st with
  | None => (None, st)
  | Some textDocument =>
      let '(settings, pgPool, st) :=
        settingsAndPool
          (TextDocumentIdentifier.uri
             (TextDocumentPositionParams.textDocument params)) st in
      match pgPool with
      | None => (None, st)
      | Some pgPool =>
          (getHover (hover svc) (helpers svc) pgPool params textDocument
             (LanguageServerSettings.defaultSchema settings), st)
      end
  end.

(** [params.settings.plpgsqlLanguageServer] is the [settings] here. *)
Definition onDidChangeConfiguration (settings : LanguageServerSettings.t)
    (st : t S D P) : t S D P :=
  validateAll
    (withSettings st
       (settingsReset svc settings
          (Handlers.settingsManager (handlers st)))).

(** The [forEach] over [params.changes] that sets [hasChanges]. *)
Definition hasChanges (changes : list FileEvent.t) : bool :=
  foldl (λ hasChanges change,
           if decide (FileEvent.type_ change = FileChangeType.Changed)
           then true else hasChanges)
        false changes.

Definition onDidChangeWatchedFiles (changes : list FileEvent.t)
    (st : t S D P) : t S D P :=
  if hasChanges changes then validateAll st else st.
End ServerHandlers.

(** What the constructor subscribes the handlers to. *)
Inductive Event :=
| DidChangeContent (event : TextDocumentChangeEvent.t)
| DidClose (event : TextDocumentChangeEvent.t)
| DidOpen (event : TextDocumentChangeEvent.t)
| DidSave (event : TextDocumentChangeEvent.t)
| Completion (params : TextDocumentPositionParams.t)
| Definition_ (params : TextDocumentPositionParams.t)
| DidChangeConfiguration (settings : LanguageServerSettings.t)
| DidChangeWatchedFiles (changes : list FileEvent.t)
| HoverRequest (params : TextDocumentPositionParams.t).

(** The state after the handler of an event has run. *)
Definition handle {S D P : Type} (svc : ServerServices S D P)
    (event : Event) (st : t S D P) : t S D P :=
  match event with
  | DidChangeContent event => onDidChangeContent svc event st
  | DidClose event => onDidClose svc event st
  | DidOpen event => onDidOpen svc event st
  | DidSave event => onDidSave svc event st
  | Completion params => (onCompletion svc params st).2
  | Definition_ params => (onDefinition svc params st).2
  | DidChangeConfiguration settings => onDidChangeConfiguration svc settings st
  | DidChangeWatchedFiles changes => onDidChangeWatchedFiles svc changes st
  | HoverRequest params => (onHover svc params st).2
  end.

(** The event is a request, or the opening of a document. *)
Definition isRequestOrOpen (event : Event) : bool :=
  match event with
  | Completion _ | Definition_ _ | HoverRequest _ | DidOpen _ => true
  | _ => false
  end.

(** The event is one whose handler hands the definitions manager to
    other code: to load on opening, to update on saving, to resolve on a
    definition request. *)
Definition reachesDefinitions (event : Event) : bool :=
  match event with
  | DidOpen _ | DidSave _ | Definition_ _ => true
  | _ => false
  end.
End Server.

(** A server for the samples: the settings manager remembers the
    documents it was asked about, the pools are counted, the validator
    finds nothing. *)
Module ServerSamples.
Definition servicesWith (validationDisabled : bool)
  : ServerServices (list DocumentUri) DefinitionMap.t nat :=
  {| hover := Sample.hoverServices;
     helpers := Sample.helpers;
     CompletionItem := string;
     disableLanguageServer _ := false;
     disableValidation _ := validationDisabled;
     readTextDocumentFromUri uri := TextDocument.mk uri "SELECT 1";
     getPool pools _ := (Some (), S pools);
     validateTextDocument _ _ _ := Some [];
     getCompletionItems _ _ _ _ := None;
     settingsGet uri asked := (Sample.settings, uri :: asked);
     settingsDelete uri asked := filter (λ u, u ≠ uri) asked;
     settingsReset _ _ := [];
     settingsGetWorkspaceFolder _ asked := (Some Sample.workspace, asked);
     settingsIsDefinitionTarget _ asked := (false, asked);
     hasWorkspaceFolder _ _ := false;
     loadWorkspaceDefinitions _ _ _ := Space.definitionMap Sample.loadedSpace;
     hasFileDefinitions m uri := bool_decide (is_Some (DefinitionMap.fileEntry m uri));
     updateFileDefinitions _ _ m := (None, m);
     managerDefinitionLinks m _ _ := (None, m) |}.

Definition services : ServerServices (list DocumentUri) DefinitionMap.t nat :=
  servicesWith false.

Definition started : Server.t (list DocumentUri) DefinitionMap.t nat :=
  Server.mk
    (Handlers.mk (Connection.mk [])
       {[ "file:///ws/query.sql" := Sample.queryDocument ]}
       [] DefinitionMap.empty)
    0 true.

Definition created : FileEvent.t :=
  FileEvent.mk "file:///ws/.clientrc" FileChangeType.Created.
Definition changed : FileEvent.t :=
  FileEvent.mk "file:///ws/.clientrc" FileChangeType.Changed.
End ServerSamples.

(** ** The client extension ([client/src/extension.ts])

    The extension keeps one language client for untitled documents and
    one for each workspace folder.  A client is an object of the client
    library: what is kept of it here is the debug port it is created
    with, its document selector and its workspace folder; the options
    that are the same for every client (server module, transport, file
    watcher, output channel) are left out.  Two clients are two objects
    even when their options agree, so each carries the number of clients
    created before it.  Starting and stopping a client are recorded as
    effects. *)
Module Client.

Module Uri.
Record t := mk { scheme : string; fsPath : string; toString : string }.
End Uri.

Module WorkspaceFolder.
Record t := mk { uri : Uri.t; name : string; index : nat }.
End WorkspaceFolder.

Module TextDocument.
Record t := mk { languageId : string; uri : Uri.t }.
End TextDocument.

Module DocumentFilter.
Record t := mk {
  scheme : option string;
  language : option string;
  pattern : option string }.
End DocumentFilter.

Module LanguageClient.
Record t := mk {
  identity : nat;
  inspect : N;
  documentSelector : list DocumentFilter.t;
  workspaceFolder : option WorkspaceFolder.t }.
End LanguageClient.

#[global] Instance Uri_eq_dec : EqDecision Uri.t.
Proof. solve_decision. Defined.
#[global] Instance WorkspaceFolder_eq_dec : EqDecision WorkspaceFolder.t.
Proof. solve_decision. Defined.
#[global] Instance DocumentFilter_eq_dec : EqDecision DocumentFilter.t.
Proof. solve_decision. Defined.
#[global] Instance LanguageClient_eq_dec : EqDecision LanguageClient.t.
Proof. solve_decision. Defined.

Inductive Effect :=
| Start (client : LanguageClient.t)
| Stop (client : LanguageClient.t).

#[global] Instance Effect_eq_dec : EqDecision Effect.
Proof. solve_decision. Defined.

(** The two module variables, [defaultClient] and [clients], with the
    number of clients created and the effects so far. *)
Record t := mk {
  defaultClient : option LanguageClient.t;
  clients : gmap string LanguageClient.t;
  created : nat;
  effects : list Effect }.

Definition initial : t := mk None ∅ 0 [].

(** The client for untitled documents. *)
Definition untitledClient (s : t) : LanguageClient.t :=
  LanguageClient.mk (created s) 6170%N
    [DocumentFilter.mk (Some "untitled") (Some "postgres") None] None.

(** The client for a workspace folder: its debug port is counted up from
    the number of folder clients there are. *)
Definition folderClient (s : t) (folder : WorkspaceFolder.t)
  : LanguageClient.t :=
  LanguageClient.mk (created s) (6171 + N.of_nat (size (clients s)))%N
    [DocumentFilter.mk (Some "file") (Some "postgres")
       (Some (Uri.fsPath (WorkspaceFolder.uri folder) +:+ "/**/*"))]
    (Some folder).

(** [getWorkspaceFolder] is [Workspace.getWorkspaceFolder], the lookup of
    the editor. *)
Definition didOpenTextDocument
    (getWorkspaceFolder : Uri.t → option WorkspaceFolder.t)
    (document : TextDocument.t) (s : t) : t :=
  if bool_decide
       (TextDocument.languageId document ≠ "postgres"
        ∨ (Uri.scheme (TextDocument.uri document) ≠ "file"
           ∧ Uri.scheme (TextDocument.uri document) ≠ "untitled"))
  then s
  else
    let uri := TextDocument.uri document in
    if bool_decide (Uri.scheme uri = "untitled"
                    ∧ defaultClient s = None)
    then
      let client := untitledClient s in
      mk (Some client) (clients s) (S (created s))
         (effects s ++ [Start client])
    else
      match getWorkspaceFolder uri with
      | None => s
      | Some folder =>
          let key := Uri.toString (WorkspaceFolder.uri folder) in
          match clients s !! key with
          | Some _ => s
          | None =>
              let client := folderClient s folder in
              mk (defaultClient s) (<[key := client]> (clients s))
                 (S (created s)) (effects s ++ [Start client])
          end
      end.

(** The body of the loop over [event.removed]. *)
Definition removeFolder (s : t) (folder : WorkspaceFolder.t) : t :=
  let key := Uri.toString (WorkspaceFolder.uri folder) in
  match clients s !! key with
  | Some client =>
      mk (defaultClient s) (delete key (clients s)) (created s)
         (effects s ++ [Stop client])
  | None => s
  end.

Definition onDidChangeWorkspaceFolders (removed : list WorkspaceFolder.t)
    (s : t) : t :=
  foldl removeFolder s removed.

(** [deactivate] stops the default client, if there is one, and every
    folder client.  The library lists the folder clients in the order in
    which they were added; the map here does not keep that order, so
    nothing below depends on it. *)
Definition deactivate (s : t) : t :=
  mk (defaultClient s) (clients s) (created s)
     (effects s
        ++ match defaultClient s with
           | Some client => [Stop client]
           | None => []
           end
        ++ (Stop <$> (map_to_list (clients s)).*2)).

(** What the editor tells the extension after [activate]. *)
Inductive Event :=
| DidOpenTextDocument
    (getWorkspaceFolder : Uri.t → option WorkspaceFolder.t)
    (document : TextDocument.t)
| DidChangeWorkspaceFolders (removed : list WorkspaceFolder.t).

Definition step (s : t) (event : Event) : t :=
  match event with
  | DidOpenTextDocument getWorkspaceFolder document =>
      didOpenTextDocument getWorkspaceFolder document s
  | DidChangeWorkspaceFolders removed =>
      onDidChangeWorkspaceFolders removed s
  end.

Definition run (events : list Event) : t := foldl step initial events.

(** A client is running when it has been started and not stopped; the
    extension holds it when it is the default client or in [clients]. *)
Definition running (s : t) (client : LanguageClient.t) : Prop :=
  Start client ∈ effects s ∧ Stop client ∉ effects s.

Definition held (s : t) (client : LanguageClient.t) : Prop :=
  defaultClient s = Some client ∨ ∃ key, clients s !! key = Some client.

(** What every event keeps true. *)
Definition wellFormed (s : t) : Prop :=
  (∀ client, Start client ∈ effects s →
             (LanguageClient.identity client < created s)%nat)
  ∧ (∀ client, Stop client ∈ effects s → Start client ∈ effects s)
  ∧ (∀ client, held s client ↔ running s client)
  ∧ (∀ key key' client,
       clients s !! key = Some client → clients s !! key' = Some client →
       key = key')
  ∧ (∀ key client,
       clients s !! key = Some client → defaultClient s ≠ Some client).

(** The debug ports of the folder clients, while no folder has been
    removed: they count up from 6171 without a gap. *)
Definition portsInOrder (s : t) : Prop :=
  (∀ key client,
     clients s !! key = Some client →
     (6171 ≤ LanguageClient.inspect client
      < 6171 + N.of_nat (size (clients s)))%N)
  ∧ (∀ key key' client client',
       clients s !! key = Some client → clients s !! key' = Some client' →
       LanguageClient.inspect client = LanguageClient.inspect client' →
       key = key').
End Client.

Module ClientSamples.
Definition folderA : Client.WorkspaceFolder.t :=
  Client.WorkspaceFolder.mk (Client.Uri.mk "file" "/a" "file:///a") "a" 0.
Definition folderB : Client.WorkspaceFolder.t :=
  Client.WorkspaceFolder.mk (Client.Uri.mk "file" "/b" "file:///b") "b" 1.

Definition document (languageId scheme path : string)
  : Client.TextDocument.t :=
  Client.TextDocument.mk languageId
    (Client.Uri.mk scheme path (scheme +:+ "://" +:+ path)).

(** The folder of a file is told by the start of its path. *)
Definition getWorkspaceFolder (uri : Client.Uri.t)
  : option Client.WorkspaceFolder.t :=
  if String.prefix "/a/" (Client.Uri.fsPath uri) then Some folderA
  else if String.prefix "/b/" (Client.Uri.fsPath uri) then Some folderB
  else None.

Definition open (languageId scheme path : string) : Client.Event :=
  Client.DidOpenTextDocument getWorkspaceFolder
    (document languageId scheme path).
End ClientSamples.

(** ** The extraction functions at run time

    TypeScript's types are erased when the server runs: a statement is
    whatever value the parser's JSON holds, and what [?.], [===],
    [.length] and [.flatMap] do is decided by that value.  This section
    has the values, the operations of the language on them that the
    extraction functions use, and the three functions once more, on
    values, with the exception they can raise.

    A value is a JSON value or [undefined].  Numbers are kept as the
    integers (fractions and exponents play no part below); an object is
    the list of its own properties, each key once. *)
Module Js.
#[warnings="-register-all"]
Inductive value :=
| Undefined
| Null
| Bool (b : bool)
| Number (z : Z)
| Str (s : string)
| Array (elements : list value)
| Object (properties : list (string * value)).

(** How a call ends: with a value, or with the [TypeError] it throws. *)
Inductive Result (A : Type) :=
| Returned (a : A)
| TypeError (message : string).
Arguments Returned {A}.
Arguments TypeError {A}.

Fixpoint lookupProperty (key : string) (properties : list (string * value))
  : value :=
  match properties with
  | [] => Undefined
  | (k, v) :: properties =>
      if String.eqb k key then v else lookupProperty key properties
  end.

(** [v.key] for a [v] that is neither [undefined] nor [null].  An object
    has its own properties, an array and a string have their [length];
    none of the field names the extraction functions read ([stmt],
    [CreateStmt], [relation], [schemaname], [relname],
    [CompositeTypeStmt], [typevar], [CreateFunctionStmt], [funcname],
    [String], [str]) is a property of a prototype, so every other read
    is [undefined].  The length of a string is counted in characters of
    the embedding; it is read only to be compared with 0. *)
Definition own (v : value) (key : string) : value :=
  match v with
  | Object properties => lookupProperty key properties
  | Array elements =>
      if String.eqb key "length" then Number (Z.of_nat (length elements))
      else Undefined
  | Str s =>
      if String.eqb key "length" then Number (Z.of_nat (String.length s))
      else Undefined
  | _ => Undefined
  end.

(** [v.key]: reading a property of [undefined] or [null] throws. *)
Definition getProperty (v : value) (key : string) : Result value :=
  match v with
  | Undefined =>
      TypeError ("Cannot read properties of undefined (reading '"
                 +:+ key +:+ "')")
  | Null =>
      TypeError ("Cannot read properties of null (reading '"
                 +:+ key +:+ "')")
  | _ => Returned (own v key)
  end.

(** [v?.key]: [undefined] when [v] is [undefined] or [null], and never
    throws. *)
Definition optional (v : value) (key : string) : value :=
  match v with
  | Undefined | Null => Undefined
  | _ => own v key
  end.

(** [v === undefined] and [v === z] for a number [z]. *)
Definition isUndefined (v : value) : bool :=
  match v with
  | Undefined => true
  | _ => false
  end.

Definition isNumber (z : Z) (v : value) : bool :=
  match v with
  | Number z' => Z.eqb z' z
  | _ => false
  end.

(** What a template literal makes of a substituted value. *)
Fixpoint toString (v : value) : string :=
  match v with
  | Undefined => "undefined"
  | Null => "null"
  | Bool true => "true"
  | Bool false => "false"
  | Number z => pretty z
  | Str s => s
  | Array elements =>
      String.concat ","
        (List.map (λ element,
                     match element with
                     | Undefined | Null => EmptyString
                     | _ => toString element
                     end)
                  elements)
  | Object _ => "[object Object]"
  end.

(** [Array.prototype.flatMap] with a callback that returns arrays: the
    callback is called on the elements in order, the first exception
    ends the call. *)
Fixpoint flatMap {A B : Type} (callback : A → Result (list B))
    (elements : list A) : Result (list B) :=
  match elements with
  | [] => Returned []
  | element :: elements =>
      match callback element with
      | TypeError message => TypeError message
      | Returned mapped =>
          match flatMap callback elements with
          | TypeError message => TypeError message
          | Returned rest => Returned (mapped ++ rest)
          end
      end
  end.
End Js.

Notation "v ?.[ key ]" := (Js.optional v key)
  (at level 1, left associativity, format "v ?.[ key ]").

(** The three extraction functions of [goToDefinition.ts] on values.  A
    candidate's [definition] is whatever value the tree holds in that
    place; only [getCreateStmts] makes a string of it. *)
Module Untyped.
Record Candidate := mk {
  definition : Js.value;
  definitionLink : DefinitionLink }.

Definition createStmtCandidates (resource : Resource) (stmt : Js.value)
  : Js.Result (list Candidate) :=
  let schemaname :=
    stmt?.["stmt"]?.["CreateStmt"]?.["relation"]?.["schemaname"] in
  let relname :=
    stmt?.["stmt"]?.["CreateStmt"]?.["relation"]?.["relname"] in
  if Js.isUndefined schemaname || Js.isUndefined relname
  then Js.Returned []
  else
    Js.Returned
      [ {| definition :=
             Js.Str (Js.toString schemaname +:+ "." +:+ Js.toString relname);
           definitionLink := fileLink resource |} ].

Definition getCreateStmts (stmts : list Js.value) (resource : Resource)
  : Js.Result (list Candidate) :=
  Js.flatMap (createStmtCandidates resource) stmts.

Definition compositeTypeCandidates (resource : Resource) (stmt : Js.value)
  : Js.Result (list Candidate) :=
  let definition :=
    stmt?.["stmt"]?.["CompositeTypeStmt"]?.["typevar"]?.["relname"] in
  if Js.isUndefined definition then Js.Returned []
  else
    Js.Returned
      [ {| definition := definition; definitionLink := fileLink resource |} ].

Definition getCompositeTypeStmts (stmts : list Js.value)
    (resource : Resource) : Js.Result (list Candidate) :=
  Js.flatMap (compositeTypeCandidates resource) stmts.

Definition funcnameCandidates (resource : Resource) (funcname : Js.value)
  : Js.Result (list Candidate) :=
  let definition := funcname?.["String"]?.["str"] in
  if Js.isUndefined definition then Js.Returned []
  else
    Js.Returned
      [ {| definition := definition; definitionLink := fileLink resource |} ].

(** [funcnames.flatMap(...)]: only an array has the method; on any other
    value that is not [undefined] or [null] the property read yields
    [undefined], and calling it throws. *)
Definition funcnamesFlatMap (resource : Resource) (funcnames : Js.value)
  : Js.Result (list Candidate) :=
  match funcnames with
  | Js.Array elements => Js.flatMap (funcnameCandidates resource) elements
  | Js.Undefined =>
      Js.TypeError "Cannot read properties of undefined (reading 'flatMap')"
  | Js.Null =>
      Js.TypeError "Cannot read properties of null (reading 'flatMap')"
  | _ => Js.TypeError "funcnames.flatMap is not a function"
  end.

Definition createFunctionCandidates (resource : Resource) (stmt : Js.value)
  : Js.Result (list Candidate) :=
  let funcnames := stmt?.["stmt"]?.["CreateFunctionStmt"]?.["funcname"] in
  if Js.isUndefined funcnames then Js.Returned []
  else
    match Js.getProperty funcnames "length" with
    | Js.TypeError message => Js.TypeError message
    | Js.Returned length =>
        if Js.isNumber 0 length then Js.Returned []
        else funcnamesFlatMap resource funcnames
    end.

Definition getCreateFunctionStmts (stmts : list Js.value)
    (resource : Resource) : Js.Result (list Candidate) :=
  Js.flatMap (createFunctionCandidates resource) stmts.


End Untyped.

(** A tree of the declared types as the value it is at run time: a
    record is an object, a field that is missing is a property the
    object does not have. *)
Module Erase.
Definition property (key : string) (v : option Js.value)
  : list (string * Js.value) :=
  match v with
  | Some v => [(key, v)]
  | None => []
  end.

Definition string_ (s : string) : Js.value := Js.Str s.
Definition uinteger_ (n : uinteger) : Js.value := Js.Number (Z.of_nat n).
Definition integer_ (z : integer) : Js.value := Js.Number z.
Definition boolean_ (b : bool) : Js.value := Js.Bool b.

Definition createStmtRelation (r : CreateStmtRelation.t) : Js.value :=
  Js.Object
    (property "schemaname" (string_ <$> CreateStmtRelation.schemaname r)
     ++ property "relname" (string_ <$> CreateStmtRelation.relname r)
     ++ property "location" (uinteger_ <$> CreateStmtRelation.location r)).

Definition createStmt (s : CreateStmt.t) : Js.value :=
  Js.Object
    (property "relation" (createStmtRelation <$> CreateStmt.relation s)).

Definition viewStmtRelation (r : ViewStmtRelation.t) : Js.value :=
  Js.Object
    (property "schemaname" (string_ <$> ViewStmtRelation.schemaname r)
     ++ property "relname" (string_ <$> ViewStmtRelation.relname r)
     ++ property "location" (uinteger_ <$> ViewStmtRelation.location r)).

Definition viewStmt (s : ViewStmt.t) : Js.value :=
  Js.Object (property "view" (viewStmtRelation <$> ViewStmt.view s)).

Definition compositeTypeStmtTypevar (t : CompositeTypeStmtTypevar.t)
  : Js.value :=
  Js.Object
    (property "schemaname"
       (string_ <$> CompositeTypeStmtTypevar.schemaname t)
     ++ property "relname" (string_ <$> CompositeTypeStmtTypevar.relname t)
     ++ property "relpersistence"
          (string_ <$> CompositeTypeStmtTypevar.relpersistence t)
     ++ property "location"
          (uinteger_ <$> CompositeTypeStmtTypevar.location t)).

Definition compositeTypeStmt (s : CompositeTypeStmt.t) : Js.value :=
  Js.Object
    (property "typevar"
       (compositeTypeStmtTypevar <$> CompositeTypeStmt.typevar s)).

Definition funcNameString (s : FuncNameString.t) : Js.value :=
  Js.Object (property "str" (string_ <$> FuncNameString.str s)).

Definition funcName (n : FuncName.t) : Js.value :=
  Js.Object (property "String" (funcNameString <$> FuncName.String n)).

Definition funcNames (names : list FuncName.t) : Js.value :=
  Js.Array (funcName <$> names).

Definition createFunctionStmt (s : CreateFunctionStmt.t) : Js.value :=
  Js.Object
    (property "is_procedure" (boolean_ <$> CreateFunctionStmt.is_procedure s)
     ++ property "replace" (boolean_ <$> CreateFunctionStmt.replace s)
     ++ property "funcname" (funcNames <$> CreateFunctionStmt.funcname s)).

Definition createTrigStmtRelation (r : CreateTrigStmtRelation.t)
  : Js.value :=
  Js.Object
    (property "relname" (string_ <$> CreateTrigStmtRelation.relname r)
     ++ property "inh" (boolean_ <$> CreateTrigStmtRelation.inh r)
     ++ property "relpersistence"
          (string_ <$> CreateTrigStmtRelation.relpersistence r)).

Definition createTrigStmt (s : CreateTrigStmt.t) : Js.value :=
  Js.Object
    (property "trigname" (string_ <$> CreateTrigStmt.trigname s)
     ++ property "relation"
          (createTrigStmtRelation <$> CreateTrigStmt.relation s)
     ++ property "funcname" (funcNames <$> CreateTrigStmt.funcname s)
     ++ property "row" (boolean_ <$> CreateTrigStmt.row s)
     ++ property "events" (integer_ <$> CreateTrigStmt.events s)).

Definition indexStmt (s : IndexStmt.t) : Js.value :=
  Js.Object (property "idxname" (string_ <$> IndexStmt.idxname s)).

Definition statementItem (item : StatementItem.t) : Js.value :=
  Js.Object
    (property "CreateStmt" (createStmt <$> StatementItem.CreateStmt item)
     ++ property "ViewStmt" (viewStmt <$> StatementItem.ViewStmt item)
     ++ property "CompositeTypeStmt"
          (compositeTypeStmt <$> StatementItem.CompositeTypeStmt item)
     ++ property "CreateFunctionStmt"
          (createFunctionStmt <$> StatementItem.CreateFunctionStmt item)
     ++ property "CreateTrigStmt"
          (createTrigStmt <$> StatementItem.CreateTrigStmt item)
     ++ property "IndexStmt" (indexStmt <$> StatementItem.IndexStmt item)).

Definition statement (stmt : Statement.t) : Js.value :=
  Js.Object
    (property "stmt" (statementItem <$> Statement.stmt stmt)
     ++ property "stmt_location" (uinteger_ <$> Statement.stmt_location stmt)
     ++ property "stmt_len" (uinteger_ <$> Statement.stmt_len stmt)).

(** A candidate of the typed functions as the object it is. *)
Definition candidate (c : Candidate) : Untyped.Candidate :=
  {| Untyped.definition := Js.Str (definition c);
     Untyped.definitionLink := definitionLink c |}.

End Erase.

(** Statements no interface of [statement.ts] allows: a function whose
    [funcname] is [null], is a string, is an object; and values that are
    no objects at all. *)
Module UntypedSamples.
Definition functionNamed (funcname : Js.value) : Js.value :=
  Js.Object
    [("stmt",
      Js.Object
        [("CreateFunctionStmt", Js.Object [("funcname", funcname)])]);
     ("stmt_len", Js.Number 40)].

Definition stringFunction : Js.value := functionNamed (Js.Str "app.total").
Definition objectFunction : Js.value :=
  functionNamed (Js.Object [("String", Js.Object [("str", Js.Str "f")])]).

End UntypedSamples.

(** * Properties *)

(** ** Extraction over lists *)

(** Closes a goal about a candidate drawn from the zero or one candidates
    of a callback. *)
Ltac one_candidate H :=
  repeat case_match;
  first [ by apply elem_of_nil in H
        | by apply list_elem_of_singleton in H as -> ].

Section Extraction.
Context (resource : Resource).
Implicit Types (stmt : Statement.t) (pre post stmts : list Statement.t).

Lemma getCreateStmts_middle pre stmt post :
  getCreateStmts (pre ++ stmt :: post) resource
  = getCreateStmts pre resource ++ createStmtCandidates resource stmt
      ++ getCreateStmts post resource.
Proof. unfold getCreateStmts. by rewrite bind_app, bind_cons. Qed.

Lemma getCompositeTypeStmts_middle pre stmt post :
  getCompositeTypeStmts (pre ++ stmt :: post) resource
  = getCompositeTypeStmts pre resource
      ++ compositeTypeCandidates resource stmt
      ++ getCompositeTypeStmts post resource.
Proof. unfold getCompositeTypeStmts. by rewrite bind_app, bind_cons. Qed.

Lemma getCreateFunctionStmts_middle pre stmt post :
  getCreateFunctionStmts (pre ++ stmt :: post) resource
  = getCreateFunctionStmts pre resource
      ++ createFunctionCandidates resource stmt
      ++ getCreateFunctionStmts post resource.
Proof. unfold getCreateFunctionStmts. by rewrite bind_app, bind_cons. Qed.

Lemma getCreateStmts_app pre post :
  getCreateStmts (pre ++ post) resource
  = getCreateStmts pre resource ++ getCreateStmts post resource.
Proof. apply bind_app. Qed.

Lemma getCompositeTypeStmts_app pre post :
  getCompositeTypeStmts (pre ++ post) resource
  = getCompositeTypeStmts pre resource
      ++ getCompositeTypeStmts post resource.
Proof. apply bind_app. Qed.

Lemma getCreateFunctionStmts_app pre post :
  getCreateFunctionStmts (pre ++ post) resource
  = getCreateFunctionStmts pre resource
      ++ getCreateFunctionStmts post resource.
Proof. apply bind_app. Qed.

(** What one statement contributes, by the fields it has. *)
Lemma createStmtCandidates_fields stmt :
  createStmtCandidates resource stmt
  = match tableRelation stmt ?.CreateStmtRelation.schemaname,
          tableRelation stmt ?.CreateStmtRelation.relname with
    | Some schemaname, Some relname =>
        [mkCandidate (schemaname +:+ "." +:+ relname) (fileLink resource)]
    | _, _ => []
    end.
Proof. reflexivity. Qed.

Lemma compositeTypeCandidates_fields stmt :
  compositeTypeCandidates resource stmt
  = match typeTypevar stmt ?.CompositeTypeStmtTypevar.relname with
    | Some relname => [mkCandidate relname (fileLink resource)]
    | None => []
    end.
Proof.
  unfold compositeTypeCandidates, typeTypevar.
  by destruct (_ ?.CompositeTypeStmtTypevar.relname).
Qed.

Lemma funcnameCandidates_fields funcname :
  funcnameCandidates resource funcname
  = match nameString funcname with
    | Some name => [mkCandidate name (fileLink resource)]
    | None => []
    end.
Proof.
  unfold funcnameCandidates, nameString.
  by destruct (_ ?.FuncNameString.str).
Qed.

Lemma createFunctionCandidates_fields stmt :
  createFunctionCandidates resource stmt
  = default [] (functionNames stmt) ≫= funcnameCandidates resource.
Proof.
  unfold createFunctionCandidates, functionNames.
  destruct (_ ?.CreateFunctionStmt.funcname) as [[|funcname funcnames]|];
    reflexivity.
Qed.

Lemma funcnames_all_named (funcnames : list FuncName.t)
    (names : list string) :
  Forall2 (λ funcname name, nameString funcname = Some name)
          funcnames names →
  funcnames ≫= funcnameCandidates resource
  = (λ name, mkCandidate name (fileLink resource)) <$> names.
Proof.
  induction 1 as [|funcname name funcnames names Hname _ IH]; [done|].
  rewrite bind_cons, funcnameCandidates_fields, Hname, IH. done.
Qed.


Lemma notExtracted_table stmt :
  notExtracted stmt → createStmtCandidates resource stmt = [].
Proof.
  intros (Hnone & _ & _). rewrite createStmtCandidates_fields.
  unfold tableRelation. by rewrite Hnone.
Qed.

Lemma notExtracted_type stmt :
  notExtracted stmt → compositeTypeCandidates resource stmt = [].
Proof.
  intros (_ & Hnone & _). rewrite compositeTypeCandidates_fields.
  unfold typeTypevar. by rewrite Hnone.
Qed.

Lemma notExtracted_function stmt :
  notExtracted stmt → createFunctionCandidates resource stmt = [].
Proof.
  intros (_ & _ & Hnone). rewrite createFunctionCandidates_fields.
  unfold functionNames. by rewrite Hnone.
Qed.

(** A statement that adds nothing to any of the three lists can be
    dropped from the statement list. *)
Lemma createStmts_skip pre stmt post :
  createStmtCandidates resource stmt = [] →
  compositeTypeCandidates resource stmt = [] →
  createFunctionCandidates resource stmt = [] →
  createStmts (pre ++ stmt :: post) resource
  = createStmts (pre ++ post) resource.
Proof.
  intros Htable Htype Hfunction. unfold createStmts.
  rewrite getCreateStmts_middle, getCompositeTypeStmts_middle,
    getCreateFunctionStmts_middle, Htable, Htype, Hfunction.
  by rewrite getCreateStmts_app, getCompositeTypeStmts_app,
    getCreateFunctionStmts_app.
Qed.

Lemma createStmts_links (c : Candidate) stmts :
  c ∈ createStmts stmts resource → definitionLink c = fileLink resource.
Proof.
  unfold createStmts, getCreateStmts, getCompositeTypeStmts,
    getCreateFunctionStmts.
  rewrite !elem_of_app, !list_elem_of_bind.
  intros [(stmt & Hc & _)|[(stmt & Hc & _)|(stmt & Hc & _)]].
  - rewrite createStmtCandidates_fields in Hc.
    one_candidate Hc.
  - rewrite compositeTypeCandidates_fields in Hc.
    one_candidate Hc.
  - rewrite createFunctionCandidates_fields in Hc.
    apply list_elem_of_bind in Hc as (funcname & Hc & _).
    rewrite funcnameCandidates_fields in Hc.
    one_candidate Hc.
Qed.
End Extraction.

(** ** The definition map *)

Section DefinitionMapFacts.
Implicit Types (entries : list (Resource * list Candidate))
  (m : DefinitionMap.t) (resource : Resource).

Lemma lookupFile_replaceFile resource candidates entries :
  DefinitionMap.lookupFile resource
    (DefinitionMap.replaceFile resource candidates entries)
  = Some candidates.
Proof.
  induction entries as [|[r old] entries IH]; simpl.
  - by rewrite decide_True.
  - destruct (decide (r = resource)) as [->|Hne]; simpl.
    + by rewrite decide_True.
    + by rewrite decide_False.
Qed.

Lemma lookupFile_replaceFile_ne resource other candidates entries :
  resource ≠ other →
  DefinitionMap.lookupFile other
    (DefinitionMap.replaceFile resource candidates entries)
  = DefinitionMap.lookupFile other entries.
Proof.
  intros Hne. induction entries as [|[r old] entries IH]; simpl.
  - by rewrite decide_False.
  - destruct (decide (r = resource)) as [->|Hr]; simpl.
    + by rewrite !decide_False.
    + by rewrite IH.
Qed.

Lemma replaceFile_elem resource candidates entries :
  (resource, candidates)
    ∈ DefinitionMap.replaceFile resource candidates entries.
Proof.
  induction entries as [|[r old] entries IH]; simpl.
  - apply list_elem_of_singleton. done.
  - destruct (decide (r = resource)); [left | by right].
Qed.


Lemma fileEntry_updateCandidates resource candidates m :
  DefinitionMap.fileEntry
    (DefinitionMap.updateCandidates resource candidates m) resource
  = Some candidates.
Proof. apply lookupFile_replaceFile. Qed.

Lemma fileEntry_updateCandidates_ne resource other candidates m :
  resource ≠ other →
  DefinitionMap.fileEntry
    (DefinitionMap.updateCandidates resource candidates m) other
  = DefinitionMap.fileEntry m other.
Proof. apply lookupFile_replaceFile_ne. Qed.

(** A link is returned for a word exactly when some file entry holds a
    candidate stored under that very word. *)
Lemma getDefinitionLinks_spec m word (link : DefinitionLink) :
  link ∈ DefinitionMap.getDefinitionLinks m word
  ↔ ∃ resource candidates c,
      (resource, candidates) ∈ DefinitionMap.fileDefinitions m
      ∧ c ∈ candidates ∧ definition c = word ∧ definitionLink c = link.
Proof.
  unfold DefinitionMap.getDefinitionLinks.
  rewrite list_elem_of_fmap. split.
  - intros (c & -> & Hc). apply list_elem_of_filter in Hc as [Hword Hc].
    apply list_elem_of_bind in Hc as ([resource candidates] & Hc & Hentry).
    by exists resource, candidates, c.
  - intros (resource & candidates & c & Hentry & Hc & Hword & <-).
    exists c. split; [done|]. apply list_elem_of_filter. split; [done|].
    apply list_elem_of_bind. by exists (resource, candidates).
Qed.

Lemma getDefinitionLinks_updateCandidates resource candidates m
    (c : Candidate) :
  c ∈ candidates →
  definitionLink c
    ∈ DefinitionMap.getDefinitionLinks
        (DefinitionMap.updateCandidates resource candidates m)
        (definition c).
Proof.
  intros Hc. apply getDefinitionLinks_spec.
  exists resource, candidates, c. split; [|done].
  apply replaceFile_elem.
Qed.
End DefinitionMapFacts.

(** ** Claims about extraction *)

(** C9, as the code has it: every Declaration the extraction functions
    produce points at its own file, with the target range and the target
    selection range both the zero-width range at line 0, character 0,
    wherever the statement stands in the text; the link carries no origin
    span. *)
Theorem declaration_link_spans (stmts : list Statement.t)
    (resource : Resource) (c : Candidate) :
  c ∈ createStmts stmts resource →
  LocationLink.targetUri (definitionLink c) = resource
  ∧ LocationLink.targetRange (definitionLink c) = zeroRange
  ∧ LocationLink.targetSelectionRange (definitionLink c) = zeroRange
  ∧ LocationLink.originSelectionRange (definitionLink c) = None.
Proof.
  intros Hc. by rewrite (createStmts_links resource c stmts Hc).
Qed.

Lemma declaration_link_spans_witness :
  mkCandidate "public.orders" (fileLink "file:///ws/orders.sql")
    ∈ createStmts [Sample.orders] "file:///ws/orders.sql"
  ∧ LocationLink.originSelectionRange (fileLink "file:///ws/orders.sql")
    = None.
Proof.
  assert (mkCandidate "public.orders" (fileLink "file:///ws/orders.sql")
            ∈ createStmts [Sample.orders] "file:///ws/orders.sql") as Hc
    by (vm_compute; left).
  split; [exact Hc|].
  exact (proj2 (proj2 (proj2 (declaration_link_spans _ _ _ Hc)))).
Defined.

(** C9 as stated fails: the Declaration of [CREATE TABLE public.orders]
    has no origin span, so its three spans are not all the zero range. *)
Lemma origin_span_is_not_set :
  ¬ ∀ c, c ∈ createStmts [Sample.orders] "file:///ws/orders.sql" →
         allSpansAtOrigin (definitionLink c).
Proof.
  intros Hall.
  destruct (Hall (mkCandidate "public.orders"
                    (fileLink "file:///ws/orders.sql")))
    as (_ & _ & Horigin); [vm_compute; left|].
  discriminate Horigin.
Qed.





(** C3, as the code has it: trigger-creation and index-creation
    statements yield no Declaration; the list handed to the index is the
    same with and without them. *)
Theorem trigger_and_index_not_extracted (resource : Resource)
    (pre post : list Statement.t) (stmt : Statement.t) :
  isTriggerOrIndexStmt stmt →
  createStmts (pre ++ stmt :: post) resource
  = createStmts (pre ++ post) resource.
Proof.
  intros [Hno _]. apply createStmts_skip.
  - by apply notExtracted_table.
  - by apply notExtracted_type.
  - by apply notExtracted_function.
Qed.

Lemma trigger_and_index_not_extracted_witness :
  isTriggerOrIndexStmt Sample.auditOrders
  ∧ isTriggerOrIndexStmt Sample.ordersByDay
  ∧ createStmts ([Sample.orders] ++ Sample.auditOrders :: [Sample.appTotal])
                "file:///ws/a.sql"
    = createStmts ([Sample.orders] ++ [Sample.appTotal]) "file:///ws/a.sql"
  ∧ createStmts ([] ++ Sample.ordersByDay :: []) "file:///ws/a.sql"
    = createStmts ([] ++ []) "file:///ws/a.sql".
Proof.
  assert (isTriggerOrIndexStmt Sample.auditOrders) as Htrigger
    by (split; [by vm_compute | left; eexists; reflexivity]).
  assert (isTriggerOrIndexStmt Sample.ordersByDay) as Hindex
    by (split; [by vm_compute | right; eexists; reflexivity]).
  split; [exact Htrigger|]. split; [exact Hindex|]. split.
  - exact (trigger_and_index_not_extracted "file:///ws/a.sql"
             [Sample.orders] [Sample.appTotal] Sample.auditOrders Htrigger).
  - exact (trigger_and_index_not_extracted "file:///ws/a.sql" [] []
             Sample.ordersByDay Hindex).
Defined.

(** C3 as stated fails: [CREATE TRIGGER audit_orders ...] is not indexed
    under its bare name; extraction returns nothing for it. *)
Lemma trigger_is_not_indexed :
  ¬ indexedOnceAs "audit_orders" Sample.auditOrders "file:///ws/a.sql".
Proof. intros [link Hlink]. discriminate Hlink. Qed.

(** C6: for a function- or procedure-creation statement whose name
    components each carry their string, extraction produces one
    Declaration per component, in order and under the component's bare
    string; once the file's candidates are in the index, each component,
    so also the bare name [f] of a function named [f], resolves to the
    file. *)
Theorem function_declarations_per_name (resource : Resource)
    (pre post : list Statement.t) (stmt : Statement.t)
    (funcnames : list FuncName.t) (names : list string) :
  functionNames stmt = Some funcnames →
  Forall2 (λ funcname name, nameString funcname = Some name)
          funcnames names →
  getCreateFunctionStmts (pre ++ stmt :: post) resource
  = getCreateFunctionStmts pre resource
      ++ ((λ name, mkCandidate name (fileLink resource)) <$> names)
      ++ getCreateFunctionStmts post resource
  ∧ length (createFunctionCandidates resource stmt) = length funcnames
  ∧ ∀ (m : DefinitionMap.t) (f : string),
      f ∈ names →
      fileLink resource
        ∈ DefinitionMap.getDefinitionLinks
            (DefinitionMap.updateCandidates resource
               (createStmts (pre ++ stmt :: post) resource) m) f.
Proof.
  intros Hnames Hall.
  assert (createFunctionCandidates resource stmt
          = (λ name, mkCandidate name (fileLink resource)) <$> names)
    as Hstmt.
  { rewrite createFunctionCandidates_fields, Hnames. simpl.
    by apply funcnames_all_named. }
  split; [|split].
  - by rewrite getCreateFunctionStmts_middle, Hstmt.
  - rewrite Hstmt, length_fmap. symmetry. by eapply Forall2_length.
  - intros m f Hf.
    apply (getDefinitionLinks_updateCandidates resource _ m
             (mkCandidate f (fileLink resource))).
    unfold createStmts. rewrite getCreateFunctionStmts_middle, Hstmt.
    rewrite !elem_of_app. right. right. right. left.
    by apply (list_elem_of_fmap_2
                (λ name, mkCandidate name (fileLink resource))).
Qed.

Lemma function_declarations_per_name_witness :
  functionNames Sample.appTotal = Some [Sample.name "app"; Sample.name "total"]
  ∧ Forall2 (λ funcname name, nameString funcname = Some name)
            [Sample.name "app"; Sample.name "total"] ["app"; "total"]
  ∧ getCreateFunctionStmts ([Sample.orders] ++ Sample.appTotal :: [])
                           "file:///ws/a.sql"
    = getCreateFunctionStmts [Sample.orders] "file:///ws/a.sql"
        ++ [mkCandidate "app" (fileLink "file:///ws/a.sql");
            mkCandidate "total" (fileLink "file:///ws/a.sql")]
        ++ getCreateFunctionStmts [] "file:///ws/a.sql"
  ∧ fileLink "file:///ws/a.sql"
      ∈ DefinitionMap.getDefinitionLinks
          (DefinitionMap.updateCandidates "file:///ws/a.sql"
             (createStmts ([Sample.orders] ++ Sample.appTotal :: [])
                          "file:///ws/a.sql")
             DefinitionMap.empty) "total".
Proof.
  assert (functionNames Sample.appTotal
          = Some [Sample.name "app"; Sample.name "total"]) as Hnames
    by reflexivity.
  assert (Forall2 (λ funcname name, nameString funcname = Some name)
            [Sample.name "app"; Sample.name "total"] ["app"; "total"])
    as Hall by (repeat constructor).
  destruct (function_declarations_per_name "file:///ws/a.sql"
              [Sample.orders] [] Sample.appTotal _ _ Hnames Hall)
    as (Hlist & _ & Hresolve).
  split; [exact Hnames|]. split; [exact Hall|]. split; [exact Hlist|].
  apply Hresolve. right. left.
Defined.


(** ** Extraction at run time *)

Section RunTime.
Context (resource : Resource).































End RunTime.




(** ** Go to definition *)

(** C1, as the code has it: for a request on an open document with a word
    under the cursor, [getDefinitionLinks] looks the word up once, exactly
    as it stands in the text, and returns the links of the Declarations
    stored under that very string; no other form of the word is tried. *)
Theorem definition_lookup_is_exact (helpers : Helpers) (space : Space.t)
    (params : TextDocumentPositionParams.t) (document : TextDocument.t)
    (wordRange : Range.t) :
  Space.documents space
    !! TextDocumentIdentifier.uri
         (TextDocumentPositionParams.textDocument params)
  = Some document →
  getWordRangeAtPosition helpers document
    (TextDocumentPositionParams.position params) = Some wordRange →
  ∃ links,
    getDefinitionLinks helpers space params = Some links
    ∧ ∀ link,
        link ∈ links
        ↔ ∃ resource candidates c,
            (resource, candidates)
              ∈ DefinitionMap.fileDefinitions (Space.definitionMap space)
            ∧ c ∈ candidates
            ∧ definition c = TextDocument.getText document (Some wordRange)
            ∧ definitionLink c = link.
Proof.
  intros Hdocument Hrange. unfold getDefinitionLinks.
  rewrite Hdocument, Hrange. eexists. split; [reflexivity|].
  intros link. apply getDefinitionLinks_spec.
Qed.

Lemma definition_lookup_is_exact_witness :
  Space.documents Sample.loadedSpace !! "file:///ws/query.sql"
  = Some Sample.queryDocument
  ∧ getWordRangeAtPosition Sample.helpers Sample.queryDocument
      (Position.create 0 16)
    = Some (Range.create (Position.create 0 14) (Position.create 0 20))
  ∧ ∃ links,
      getDefinitionLinks Sample.helpers Sample.loadedSpace Sample.onOrders
      = Some links
      ∧ ∀ link,
          link ∈ links
          ↔ ∃ resource candidates c,
              (resource, candidates)
                ∈ DefinitionMap.fileDefinitions
                    (Space.definitionMap Sample.loadedSpace)
              ∧ c ∈ candidates
              ∧ definition c = "orders"
              ∧ definitionLink c = link.
Proof.
  assert (Space.documents Sample.loadedSpace !! "file:///ws/query.sql"
          = Some Sample.queryDocument) as Hdocument by (by vm_compute).
  assert (getWordRangeAtPosition Sample.helpers Sample.queryDocument
            (Position.create 0 16)
          = Some (Range.create (Position.create 0 14)
                               (Position.create 0 20))) as Hrange
    by reflexivity.
  split; [exact Hdocument|]. split; [exact Hrange|].
  exact (definition_lookup_is_exact Sample.helpers Sample.loadedSpace
           Sample.onOrders _ _ Hdocument Hrange).
Defined.

(** C1 as stated fails.  With [public.orders] declared in the workspace
    and [public] the default schema, the design document resolves the
    cursor word [orders] to the table; the code looks up [orders] alone
    and finds nothing. *)
Lemma bare_word_misses_default_schema :
  ¬ resolvesByCandidates Sample.helpers Sample.loadedSpace "public".
Proof.
  intros Hclaim.
  assert (Space.documents Sample.loadedSpace !! "file:///ws/query.sql"
          = Some Sample.queryDocument) as Hdocument by (by vm_compute).
  assert (getWordRangeAtPosition Sample.helpers Sample.queryDocument
            (Position.create 0 16)
          = Some (Range.create (Position.create 0 14)
                               (Position.create 0 20))) as Hrange
    by reflexivity.
  specialize (Hclaim Sample.onOrders _ _ Hdocument Hrange).
  assert (getDefinitionLinks Sample.helpers Sample.loadedSpace
            Sample.onOrders = Some []) as Hcode by (by vm_compute).
  assert (DesignDoc.resolve (Space.definitionMap Sample.loadedSpace)
            "public"
            (TextDocument.getText Sample.queryDocument
               (Some (Range.create (Position.create 0 14)
                                   (Position.create 0 20))))
          = [fileLink "file:///ws/orders.sql"]) as Hdoc by (by vm_compute).
  rewrite Hcode, Hdoc in Hclaim. discriminate Hclaim.
Qed.

(** ** Updating and loading *)

Section Loading.
Context (host : Host).
Implicit Types (space : Space.t) (resource : Resource) (st : Loader.t).

Lemma afterParse_parse_error resource text space e :
  parseQuery host text = Throw e →
  afterParse host resource text space = (Throw e, space).
Proof. intros Hparse. unfold afterParse. by rewrite Hparse. Qed.

Lemma afterParse_statements resource text space query stmts :
  parseQuery host text = Normal query →
  query ?.Query.stmts = Some stmts →
  afterParse host resource text space
  = (Normal (),
     Space.withDefinitionMap space
       (DefinitionMap.updateCandidates resource (createStmts stmts resource)
          (Space.definitionMap space))).
Proof. intros Hparse Hstmts. unfold afterParse. by rewrite Hparse, Hstmts. Qed.

(** The rest of an update touches no entry but that of its own file. *)
Lemma afterParse_other_file resource other text space :
  resource ≠ other →
  DefinitionMap.fileEntry
    (Space.definitionMap (afterParse host resource text space).2) other
  = DefinitionMap.fileEntry (Space.definitionMap space) other.
Proof.
  intros Hne. unfold afterParse.
  destruct (parseQuery host text) as [query|e]; [|done].
  destruct (query ?.Query.stmts) as [stmts|]; [|done].
  simpl. by apply fileEntry_updateCandidates_ne.
Qed.

Lemma updateFileDefinition_parse_error resource space text e :
  readFileSync host (removeFileScheme resource) = Normal text →
  parseQuery host text = Throw e →
  updateFileDefinition host resource space = (Throw e, space).
Proof.
  intros Hread Hparse. unfold updateFileDefinition. rewrite Hread.
  by apply afterParse_parse_error.
Qed.


Context (workspace : WorkspaceFolder.t).

Lemma startPattern_reads filePattern :
  Forall (λ task, readFileSync host (removeFileScheme (taskResource task))
                  = Normal (taskText task))
         (startPattern host workspace filePattern).
Proof.
  unfold startPattern. apply Forall_bind, Forall_forall. intros file _.
  unfold startFile, compose. cbv beta zeta.
  destruct (readFileSync host (removeFileScheme _)) as [text|e] eqn:Hread;
    by repeat constructor.
Qed.

Lemma startPattern_task filePattern file text :
  file ∈ glob host filePattern →
  readFileSync host (removeFileScheme (fileResource workspace file))
  = Normal text →
  mkTask (fileResource workspace file) text
    ∈ startPattern host workspace filePattern.
Proof.
  intros Hfile Hread. unfold startPattern. apply list_elem_of_bind.
  exists file. split; [|done]. unfold startFile. cbv zeta.
  rewrite Hread. by left.
Qed.

Section OneFile.
Context (file text : string) (query : option Query.t)
  (stmts : list Statement.t).
Context
  (Hread : readFileSync host (removeFileScheme (fileResource workspace file))
           = Normal text)
  (Hparse : parseQuery host text = Normal query)
  (Hstmts : query ?.Query.stmts = Some stmts).

Lemma loadInvariant_step st st' :
  load_step host workspace st st' →
  loadInvariant host workspace file text stmts st →
  loadInvariant host workspace file text stmts st'.
Proof.
  intros Hstep [Hreads Hfile].
  destruct Hstep as [space inFlight filePattern patterns
                    |space before task after patterns]; simpl in *.
  - split; simpl.
    + apply Forall_app. split; [done|]. apply startPattern_reads.
    + destruct Hfile as [(p & Hp & Hglob)|[Htask|Hentry]].
      * apply elem_of_cons in Hp as [->|Hp].
        -- right. left. apply elem_of_app. right.
           by apply startPattern_task.
        -- left. by exists p.
      * right. left. apply elem_of_app. by left.
      * by right; right.
  - apply Forall_app in Hreads as [Hbefore Hrest].
    apply Forall_cons in Hrest as [Htext Hafter].
    split; simpl.
    + apply Forall_app. by split.
    + assert (taskResource task = fileResource workspace file →
              DefinitionMap.fileEntry
                (Space.definitionMap
                   (afterParse host (taskResource task) (taskText task)
                      space).2)
                (fileResource workspace file)
              = Some (createStmts stmts (fileResource workspace file)))
        as Hsame.
      { intros Hresource. rewrite Hresource in Htext |- *.
        assert (taskText task = text) as -> by congruence.
        rewrite (afterParse_statements _ _ _ _ _ Hparse Hstmts). simpl.
        apply fileEntry_updateCandidates. }
      destruct Hfile as [Hpattern|[Htask|Hentry]].
      * by left.
      * apply elem_of_app in Htask as [Htask|Htask].
        -- right. left. apply elem_of_app. by left.
        -- apply elem_of_cons in Htask as [<-|Htask].
           ++ right. right. by apply Hsame.
           ++ right. left. apply elem_of_app. by right.
      * right. right.
        destruct (decide (taskResource task = fileResource workspace file))
          as [Heq|Hne]; [by apply Hsame|].
        by rewrite afterParse_other_file.
Qed.

Lemma loadInvariant_steps st st' :
  rtc (load_step host workspace) st st' →
  loadInvariant host workspace file text stmts st →
  loadInvariant host workspace file text stmts st'.
Proof.
  induction 1 as [|st mid st' Hstep _ IH]; [done|].
  intros Hinv. apply IH. by eapply loadInvariant_step.
Qed.

(** Once the loop is over and nothing is in flight, the file is in the
    index. *)
Lemma loadInvariant_final space :
  loadInvariant host workspace file text stmts (Loader.mk space [] []) →
  DefinitionMap.fileEntry (Space.definitionMap space)
    (fileResource workspace file)
  = Some (createStmts stmts (fileResource workspace file)).
Proof.
  intros [_ [(p & Hp & _)|[Htask|Hentry]]]; simpl in *.
  - by apply elem_of_nil in Hp.
  - by apply elem_of_nil in Htask.
  - done.
Qed.
End OneFile.

(** Every parse in flight can settle, in the order of the list. *)
Lemma settleInOrder_steps tasks space patterns :
  rtc (load_step host workspace)
      (Loader.mk space tasks patterns)
      (Loader.mk (settleInOrder host tasks space) [] patterns).
Proof.
  revert space. induction tasks as [|task tasks IH]; intros space.
  - apply rtc_refl.
  - eapply rtc_l; [|apply IH].
    apply (step_settle host workspace space [] task tasks patterns).
Qed.

Lemma patterns_steps patterns space :
  rtc (load_step host workspace)
      (Loader.mk space [] patterns)
      (Loader.mk
         (foldl (λ space filePattern,
                   settleInOrder host
                     (startPattern host workspace filePattern) space)
                space patterns) [] []).
Proof.
  revert space. induction patterns as [|filePattern patterns IH];
    intros space.
  - apply rtc_refl.
  - eapply rtc_l; [apply step_pattern|]. simpl.
    etrans; [apply settleInOrder_steps|]. apply IH.
Qed.
End Loading.

(** A load can always run to its end: the schedule that settles every
    parse in the order of its start is one of its runs. *)
Lemma loadInOrder_is_a_load (host : Host) (space : Space.t)
    (resource : Resource) :
  loadDefinitionInWorkspace host space resource
    (loadInOrder host space resource).
Proof.
  unfold loadDefinitionInWorkspace, loadInOrder.
  destruct (Space.getWorkSpaceFolder space resource) as [workspace|];
    [|done].
  apply patterns_steps.
Qed.

(** C4: during a workspace load, a file that cannot be read or parsed
    rejects its own promise only.  Whatever happens to the other matched
    files, and in whatever order the parses settle, a matched file that
    reads and parses has its Declarations in the index once the load has
    run to its end; and a load can always run to its end. *)
Theorem load_isolates_file_errors (host : Host) (space : Space.t)
    (resource : Resource) (workspace : WorkspaceFolder.t)
    (filePattern file text : string) (query : option Query.t)
    (stmts : list Statement.t) :
  Space.getWorkSpaceFolder space resource = Some workspace →
  filePattern ∈ definitionFilePatterns space resource →
  file ∈ glob host filePattern →
  readFileSync host (removeFileScheme (fileResource workspace file))
  = Normal text →
  parseQuery host text = Normal query →
  query ?.Query.stmts = Some stmts →
  loadDefinitionInWorkspace host space resource
    (loadInOrder host space resource)
  ∧ ∀ final,
      loadDefinitionInWorkspace host space resource final →
      DefinitionMap.fileEntry (Space.definitionMap final)
        (fileResource workspace file)
      = Some (createStmts stmts (fileResource workspace file)).
Proof.
  intros Hworkspace Hpattern Hfile Hread Hparse Hstmts.
  split; [apply loadInOrder_is_a_load|].
  intros final. unfold loadDefinitionInWorkspace. rewrite Hworkspace.
  intros Hrun.
  apply (loadInvariant_final host workspace file text stmts).
  eapply (loadInvariant_steps host workspace file text query stmts);
    [done..|].
  split; simpl; [constructor|]. left. by exists filePattern.
Qed.

Lemma load_isolates_file_errors_witness :
  parseQuery Sample.host Sample.brokenSql = Throw (ParseError "syntax error")
  ∧ "broken.sql" ∈ glob Sample.host "*.sql"
  ∧ "functions.sql" ∈ glob Sample.host "*.sql"
  ∧ loadDefinitionInWorkspace Sample.host Sample.emptySpace
      "file:///ws/query.sql" Sample.loadedSpace
  ∧ DefinitionMap.fileEntry (Space.definitionMap Sample.loadedSpace)
      "file:///ws/functions.sql"
    = Some [mkCandidate "f" (fileLink "file:///ws/functions.sql")].
Proof.
  assert ("functions.sql" ∈ glob Sample.host "*.sql") as Hfile
    by compute_done.
  destruct (load_isolates_file_errors Sample.host Sample.emptySpace
              "file:///ws/query.sql" Sample.workspace "*.sql"
              "functions.sql" Sample.functionsSql
              (Some (Query.mk (Some [Sample.function None ["f"]])))
              [Sample.function None ["f"]])
    as [Hrun Hentry];
    [reflexivity | compute_done | exact Hfile
    | reflexivity | reflexivity | reflexivity |].
  split; [reflexivity|]. split; [compute_done|]. split; [exact Hfile|].
  split; [exact Hrun|]. exact (Hentry _ Hrun).
Defined.

(** C5, on the code: when the text of a file does not parse,
    [updateFileDefinition] leaves the file's Declarations as they were,
    but it does not return a [not parseable] signal: the parser's error
    leaves the function as an exception.  [getStmtements], on the same
    text, returns [undefined]. *)
Theorem unparsable_update_throws :
  DefinitionMap.fileEntry (Space.definitionMap Sample.loadedSpace)
    "file:///ws/orders.sql"
  = Some [mkCandidate "public.orders" (fileLink "file:///ws/orders.sql")]
  ∧ updateFileDefinition Sample.editedHost "file:///ws/orders.sql"
      Sample.loadedSpace
    = (Throw (ParseError "syntax error"), Sample.loadedSpace)
  ∧ getStmtements Sample.editedHost Sample.brokenSql = None.
Proof.
  split; [by vm_compute|]. split; [|reflexivity].
  by apply (updateFileDefinition_parse_error Sample.editedHost
              "file:///ws/orders.sql" Sample.loadedSpace Sample.brokenSql).
Qed.

(** ** Document events *)


(** ** Hover *)

Section HoverFacts.
Context (svc : HoverServices) (pgPool : PostgresPool svc)
  (defaultSchema : string).

Lemma makeHover_None definitionTexts :
  makeHover svc definitionTexts = None ↔ definitionTexts = [].
Proof.
  unfold makeHover. destruct definitionTexts as [|text texts]; simpl.
  - done.
  - split; [|done]. intros Hnone. discriminate Hnone.
Qed.

Lemma firstCheck_cons (texts : list string) (checks : list (list string)) :
  head (filter (λ texts, texts ≠ []) (texts :: checks)) ≫= makeHover svc
  = match makeHover svc texts with
    | Some hover => Some hover
    | None => head (filter (λ texts, texts ≠ []) checks) ≫= makeHover svc
    end.
Proof.
  rewrite filter_cons. destruct texts as [|text texts].
  - by rewrite decide_False by (by intros []).
  - by rewrite decide_True by done.
Qed.

(** The loop with its early returns finds the first check with a
    definition text. *)
Lemma hoverOfCandidates_first (candidates : list string) :
  hoverOfCandidates svc pgPool defaultSchema candidates
  = head (filter (λ texts, texts ≠ [])
            (candidates ≫= candidateChecks svc pgPool defaultSchema))
      ≫= makeHover svc.
Proof.
  induction candidates as [|wordCandidate rest IH]; [done|].
  rewrite bind_cons. simpl. unfold candidateChecks at 1.
  destruct (separateSchemaFromCandidate svc wordCandidate)
    as [[schema candidate]|]; [|by rewrite IH].
  simpl. rewrite !firstCheck_cons.
  unfold getTableHover, getViewHover, getFunctionHover, getTypeHover.
  rewrite IH. by repeat case_match.
Qed.

Lemma firstCheck_None (checks : list (list string)) :
  head (filter (λ texts, texts ≠ []) checks) ≫= makeHover svc = None
  ↔ Forall (λ texts, texts = []) checks.
Proof.
  induction checks as [|texts checks IH].
  - split; [constructor|done].
  - rewrite firstCheck_cons, Forall_cons, <- IH.
    destruct (makeHover svc texts) as [hover|] eqn:Hhover.
    + split; [done|]. intros [Hempty _].
      apply makeHover_None in Hempty. congruence.
    + apply makeHover_None in Hhover.
      split; [by intros Hrest | by intros [_ Hrest]].
Qed.
End HoverFacts.

(** C10: for a hover request with a word range, [getHover] goes through
    the sanitized word candidates in order and, for each one that
    separates into schema and name, through the table, view, function and
    type definitions in this order; it returns the hover made of the
    first non-empty list of definition texts, and [undefined] exactly
    when every check comes back empty. *)
Theorem hover_first_check (svc : HoverServices) (helpers : Helpers)
    (pgPool : PostgresPool svc) (params : TextDocumentPositionParams.t)
    (document : TextDocument.t) (defaultSchema : string)
    (wordRange : Range.t) :
  getWordRangeAtPosition helpers document
    (TextDocumentPositionParams.position params) = Some wordRange →
  getHover svc helpers pgPool params document defaultSchema
  = head (filter (λ texts, texts ≠ [])
            (hoverChecks svc pgPool defaultSchema
               (TextDocument.getText document (Some wordRange))))
      ≫= makeHover svc
  ∧ (getHover svc helpers pgPool params document defaultSchema = None
     ↔ Forall (λ texts, texts = [])
              (hoverChecks svc pgPool defaultSchema
                 (TextDocument.getText document (Some wordRange)))).
Proof.
  intros Hrange.
  assert (getHover svc helpers pgPool params document defaultSchema
          = head (filter (λ texts, texts ≠ [])
                    (hoverChecks svc pgPool defaultSchema
                       (TextDocument.getText document (Some wordRange))))
              ≫= makeHover svc) as Hfirst.
  { unfold getHover, hoverChecks. rewrite Hrange.
    apply hoverOfCandidates_first. }
  split; [exact Hfirst|]. rewrite Hfirst. apply firstCheck_None.
Qed.

Lemma hover_first_check_witness :
  getWordRangeAtPosition Sample.helpers Sample.queryDocument
    (Position.create 0 16)
  = Some (Range.create (Position.create 0 14) (Position.create 0 20))
  ∧ getHover Sample.hoverServices Sample.helpers () Sample.onOrders
      Sample.queryDocument "public"
    = makeHover Sample.hoverServices ["TABLE public.orders (id int)"].
Proof.
  assert (getWordRangeAtPosition Sample.helpers Sample.queryDocument
            (Position.create 0 16)
          = Some (Range.create (Position.create 0 14)
                               (Position.create 0 20))) as Hrange
    by reflexivity.
  split; [exact Hrange|].
  rewrite (proj1 (hover_first_check Sample.hoverServices Sample.helpers ()
                    Sample.onOrders Sample.queryDocument "public" _ Hrange)).
  reflexivity.
Defined.

(** * Further properties *)

(** ** Updating one file *)

Lemma substring_whole (s : string) :
  String.substring 0 (String.length s) s = s.
Proof. induction s as [|c s IH]; simpl; [done|]. by rewrite IH. Qed.

(** X1: the path [updateFileDefinition] reads is the resource without its
    leading [file://]; only the leading occurrence is removed. *)
Theorem removeFileScheme_file_uri (path : string) :
  removeFileScheme ("file://" +:+ path) = path.
Proof.
  unfold removeFileScheme. cbv [String.append]. simpl.
  assert (String.prefix EmptyString path = true) as -> by (by destruct path).
  rewrite Nat.sub_0_r. apply substring_whole.
Qed.

Lemma createStmts_cons (resource : Resource) (stmt : Statement.t)
    (stmts : list Statement.t) :
  createStmts (stmt :: stmts) resource
  ≡ₚ createStmts [stmt] resource ++ createStmts stmts resource.
Proof.
  unfold createStmts, getCreateStmts, getCompositeTypeStmts,
    getCreateFunctionStmts.
  rewrite !bind_cons.
  change (@nil Statement.t ≫= createStmtCandidates resource)
    with (@nil Candidate).
  change (@nil Statement.t ≫= compositeTypeCandidates resource)
    with (@nil Candidate).
  change (@nil Statement.t ≫= createFunctionCandidates resource)
    with (@nil Candidate).
  rewrite !app_nil_r.
  generalize (createStmtCandidates resource stmt)
    (compositeTypeCandidates resource stmt)
    (createFunctionCandidates resource stmt)
    (stmts ≫= createStmtCandidates resource)
    (stmts ≫= compositeTypeCandidates resource)
    (stmts ≫= createFunctionCandidates resource).
  intros t c f ts cs fs.
  rewrite <- !(assoc_L (++)). apply Permutation_app_head.
  rewrite (Permutation_app_swap_app ts c). apply Permutation_app_head.
  rewrite (Permutation_app_swap_app cs f).
  by rewrite (Permutation_app_swap_app ts f).
Qed.

Lemma bind_one_by_one {A B : Type} (f : A → list B) (l : list A) :
  l ≫= (λ x, [x] ≫= f) = l ≫= f.
Proof.
  induction l as [|x l IH]; [done|].
  rewrite !bind_cons, IH. f_equal.
  change (@nil A ≫= f) with (@nil B). apply app_nil_r.
Qed.

(** X2: the candidates of a file are, up to order, those of its
    statements taken one by one: a statement contributes the same
    candidates wherever it stands in the text.  The order is by kind and
    not by statement: the table candidates of all the statements, in the
    order of the statements, then their composite-type candidates, then
    their function candidates. *)
Theorem createStmts_per_statement (resource : Resource)
    (stmts : list Statement.t) :
  createStmts stmts resource
  ≡ₚ stmts ≫= (λ stmt, createStmts [stmt] resource)
  ∧ createStmts stmts resource
    = (stmts ≫= (λ stmt, getCreateStmts [stmt] resource))
      ++ (stmts ≫= (λ stmt, getCompositeTypeStmts [stmt] resource))
      ++ (stmts ≫= (λ stmt, getCreateFunctionStmts [stmt] resource)).
Proof.
  split.
  - induction stmts as [|stmt stmts IH]; [done|].
    by rewrite bind_cons, createStmts_cons, IH.
  - unfold createStmts, getCreateStmts, getCompositeTypeStmts,
      getCreateFunctionStmts.
    by rewrite !bind_one_by_one.
Qed.

(** X3: an update that throws leaves the space as it was, and what it
    throws is the error of the read or of the parse, as it came. *)
Theorem updateFileDefinition_throws_unchanged (host : Host)
    (resource : Resource) (space : Space.t) (e : Exn) :
  (updateFileDefinition host resource space).1 = Throw e →
  (updateFileDefinition host resource space).2 = space
  ∧ (readFileSync host (removeFileScheme resource) = Throw e
     ∨ ∃ text, readFileSync host (removeFileScheme resource) = Normal text
               ∧ parseQuery host text = Throw e).
Proof.
  unfold updateFileDefinition, afterParse.
  destruct (readFileSync host (removeFileScheme resource)) as [text|e1]
    eqn:Hread; simpl.
  - destruct (parseQuery host text) as [query|e2] eqn:Hparse; simpl.
    + destruct (query ?.Query.stmts); simpl; intros Hthrow;
        discriminate Hthrow.
    + intros [= ->]. split; [done|]. right. by exists text.
  - intros [= ->]. split; [done|]. by left.
Qed.

Lemma updateFileDefinition_throws_unchanged_witness :
  (updateFileDefinition Sample.editedHost "file:///ws/orders.sql"
     Sample.loadedSpace).1 = Throw (ParseError "syntax error")
  ∧ (updateFileDefinition Sample.editedHost "file:///ws/orders.sql"
       Sample.loadedSpace).2 = Sample.loadedSpace.
Proof.
  assert ((updateFileDefinition Sample.editedHost "file:///ws/orders.sql"
             Sample.loadedSpace).1 = Throw (ParseError "syntax error"))
    as Hthrow by reflexivity.
  split; [exact Hthrow|].
  exact (proj1 (updateFileDefinition_throws_unchanged _ _ _ _ Hthrow)).
Defined.

Lemma updateFileDefinition_statements (host : Host) (resource : Resource)
    (space : Space.t) (text : string) (query : option Query.t)
    (stmts : list Statement.t) :
  readFileSync host (removeFileScheme resource) = Normal text →
  parseQuery host text = Normal query →
  query ?.Query.stmts = Some stmts →
  updateFileDefinition host resource space
  = (Normal (),
     Space.withDefinitionMap space
       (DefinitionMap.updateCandidates resource (createStmts stmts resource)
          (Space.definitionMap space))).
Proof.
  intros Hread Hparse Hstmts. unfold updateFileDefinition. rewrite Hread.
  by apply afterParse_statements with query.
Qed.

(** X4: once a file has been updated, a definition request whose cursor
    word is the stored name of one of its Declarations returns the link of
    that Declaration. *)
Theorem update_then_resolve (helpers : Helpers) (host : Host)
    (resource : Resource) (space : Space.t) (text : string)
    (query : option Query.t) (stmts : list Statement.t) (c : Candidate)
    (params : TextDocumentPositionParams.t) (document : TextDocument.t)
    (wordRange : Range.t) :
  readFileSync host (removeFileScheme resource) = Normal text →
  parseQuery host text = Normal query →
  query ?.Query.stmts = Some stmts →
  c ∈ createStmts stmts resource →
  Space.documents space
    !! TextDocumentIdentifier.uri
         (TextDocumentPositionParams.textDocument params)
  = Some document →
  getWordRangeAtPosition helpers document
    (TextDocumentPositionParams.position params) = Some wordRange →
  TextDocument.getText document (Some wordRange) = definition c →
  ∃ links,
    getDefinitionLinks helpers
      (updateFileDefinition host resource space).2 params = Some links
    ∧ definitionLink c ∈ links.
Proof.
  intros Hread Hparse Hstmts Hc Hdocument Hrange Hword.
  rewrite (updateFileDefinition_statements _ _ _ _ _ _ Hread Hparse Hstmts).
  unfold getDefinitionLinks, Space.withDefinitionMap.
  cbn [snd Space.documents Space.definitionMap].
  rewrite Hdocument, Hrange, Hword.
  eexists. split; [reflexivity|].
  by apply getDefinitionLinks_updateCandidates.
Qed.

Lemma update_then_resolve_witness :
  mkCandidate "public.orders" (fileLink "file:///ws/orders.sql")
    ∈ createStmts [Sample.orders] "file:///ws/orders.sql"
  ∧ TextDocument.getText MoreSamples.nameDocument
      (Some (Range.create (Position.create 0 0) (Position.create 0 13)))
    = "public.orders"
  ∧ ∃ links,
      getDefinitionLinks MoreSamples.lineHelpers
        (updateFileDefinition Sample.host "file:///ws/orders.sql"
           MoreSamples.nameSpace).2 MoreSamples.onName = Some links
      ∧ fileLink "file:///ws/orders.sql" ∈ links.
Proof.
  assert (mkCandidate "public.orders" (fileLink "file:///ws/orders.sql")
            ∈ createStmts [Sample.orders] "file:///ws/orders.sql") as Hc
    by (vm_compute; left).
  split; [exact Hc|]. split; [reflexivity|].
  apply (update_then_resolve MoreSamples.lineHelpers Sample.host
           "file:///ws/orders.sql" MoreSamples.nameSpace Sample.ordersSql
           (Some (Query.mk (Some [Sample.orders]))) [Sample.orders]
           (mkCandidate "public.orders" (fileLink "file:///ws/orders.sql"))
           MoreSamples.onName MoreSamples.nameDocument
           (Range.create (Position.create 0 0) (Position.create 0 13)));
    [reflexivity | reflexivity | reflexivity | exact Hc
    | by vm_compute | reflexivity | reflexivity].
Defined.

Lemma replaceFile_twice (resource : Resource) (candidates : list Candidate)
    (entries : list (Resource * list Candidate)) :
  DefinitionMap.replaceFile resource candidates
    (DefinitionMap.replaceFile resource candidates entries)
  = DefinitionMap.replaceFile resource candidates entries.
Proof.
  induction entries as [|[r old] entries IH]; simpl.
  - by rewrite decide_True.
  - destruct (decide (r = resource)) as [->|Hne]; simpl.
    + by rewrite decide_True.
    + by rewrite decide_False, IH.
Qed.

(** X5: updating a file twice in a row, its text unchanged, gives the
    completion and the space of updating it once. *)
Theorem updateFileDefinition_twice (host : Host) (resource : Resource)
    (space : Space.t) :
  updateFileDefinition host resource
    (updateFileDefinition host resource space).2
  = updateFileDefinition host resource space.
Proof.
  unfold updateFileDefinition, afterParse.
  destruct (readFileSync host (removeFileScheme resource)) as [text|e];
    [|done].
  destruct (parseQuery host text) as [query|e]; [|done].
  destruct (query ?.Query.stmts) as [stmts|]; [|done].
  simpl. unfold Space.withDefinitionMap, DefinitionMap.updateCandidates.
  simpl. by rewrite replaceFile_twice.
Qed.

(** ** Loading, what it leaves alone *)

Section LoadFrame.
Context (host : Host) (workspace : WorkspaceFolder.t).

Lemma afterParse_no_statements resource text space :
  getStmtements host text = None →
  (afterParse host resource text space).2 = space.
Proof.
  unfold getStmtements, afterParse.
  destruct (parseQuery host text) as [query|e]; [|done].
  by intros ->.
Qed.

Lemma afterParse_documents resource text space :
  Space.documents (afterParse host resource text space).2
  = Space.documents space.
Proof.
  unfold afterParse. destruct (parseQuery host text) as [query|e]; [|done].
  by destruct (query ?.Query.stmts).
Qed.

Lemma startPattern_files filePattern :
  Forall (λ task, ∃ file, file ∈ glob host filePattern
                          ∧ taskResource task = fileResource workspace file)
         (startPattern host workspace filePattern).
Proof.
  unfold startPattern. apply Forall_forall. intros task Htask.
  apply list_elem_of_bind in Htask as (file & Htask & Hfile).
  unfold startFile in Htask. cbv zeta in Htask.
  destruct (readFileSync host (removeFileScheme _)) as [text|e].
  - apply list_elem_of_singleton in Htask as ->. by exists file.
  - by apply elem_of_nil in Htask.
Qed.

Lemma loadFrame_step patterns other space st st' :
  (∀ filePattern file,
     filePattern ∈ patterns → file ∈ glob host filePattern →
     fileResource workspace file = other → noStatements host other) →
  load_step host workspace st st' →
  loadFrame host patterns other space st →
  loadFrame host patterns other space st'.
Proof.
  intros Hquiet Hstep (Hreads & Hnone & Hpatterns & Hentry & Hdocuments).
  destruct Hstep as [current inFlight filePattern rest
                    |current before task after rest]; simpl in *.
  - split; [|split; [|split; [|split]]]; simpl; [| | |done..].
    + apply Forall_app. split; [done|]. apply startPattern_reads.
    + apply Forall_app. split; [done|].
      eapply Forall_impl; [apply startPattern_files|].
      intros task (file & Hfile & Hresource) Hother.
      apply (Hquiet filePattern file); [|done|congruence].
      apply Hpatterns. by left.
    + intros p Hp. apply Hpatterns. by right.
  - apply Forall_app in Hreads as [Hreads1 Hreads2].
    apply Forall_cons in Hreads2 as [Hread Hreads2].
    apply Forall_app in Hnone as [Hnone1 Hnone2].
    apply Forall_cons in Hnone2 as [Htask Hnone2].
    split; [|split; [|split; [|split]]]; simpl.
    + apply Forall_app. by split.
    + apply Forall_app. by split.
    + done.
    + rewrite <- Hentry.
      destruct (decide (taskResource task = other)) as [Heq|Hne].
      * specialize (Htask Heq). unfold noStatements in Htask.
        rewrite <- Heq, Hread in Htask.
        by rewrite afterParse_no_statements.
      * by apply afterParse_other_file.
    + by rewrite afterParse_documents.
Qed.

Lemma loadFrame_steps patterns other space st st' :
  (∀ filePattern file,
     filePattern ∈ patterns → file ∈ glob host filePattern →
     fileResource workspace file = other → noStatements host other) →
  rtc (load_step host workspace) st st' →
  loadFrame host patterns other space st →
  loadFrame host patterns other space st'.
Proof.
  intros Hquiet. induction 1 as [|st mid st' Hstep _ IH]; [done|].
  intros Hframe. apply IH. by eapply loadFrame_step.
Qed.

(** Patterns that match no file start no parse and change no space. *)
Lemma idle_steps st st' :
  rtc (load_step host workspace) st st' →
  Loader.inFlight st = [] →
  (∀ filePattern, filePattern ∈ Loader.patterns st →
                  glob host filePattern = []) →
  Loader.inFlight st' = [] ∧ Loader.space st' = Loader.space st.
Proof.
  induction 1 as [|st mid st' Hstep _ IH]; [done|].
  intros Hidle Hglob.
  destruct Hstep as [current inFlight filePattern rest
                    |current before task after rest]; simpl in *.
  - apply IH; simpl.
    + subst inFlight. unfold startPattern.
      rewrite (Hglob filePattern) by (by left). done.
    + intros p Hp. apply Hglob. by right.
  - by destruct before.
Qed.
End LoadFrame.

(** X6: a load that has no workspace folder, no definition files, or only
    patterns that match no file changes nothing. *)
Theorem load_without_files (host : Host) (space final : Space.t)
    (resource : Resource) :
  (∀ workspace filePattern,
     Space.getWorkSpaceFolder space resource = Some workspace →
     filePattern ∈ definitionFilePatterns space resource →
     glob host filePattern = []) →
  loadDefinitionInWorkspace host space resource final →
  final = space.
Proof.
  intros Hglob. unfold loadDefinitionInWorkspace.
  destruct (Space.getWorkSpaceFolder space resource) as [workspace|];
    [|done].
  intros Hrun.
  apply (idle_steps host workspace) in Hrun as [_ Hspace]; simpl in *;
    [done|done|].
  intros filePattern Hpattern. by apply (Hglob workspace).
Qed.

Lemma load_without_files_witness :
  definitionFilePatterns MoreSamples.unconfiguredSpace "file:///ws/a.sql"
  = []
  ∧ loadDefinitionInWorkspace Sample.host MoreSamples.unconfiguredSpace
      "file:///ws/a.sql"
      (loadInOrder Sample.host MoreSamples.unconfiguredSpace
         "file:///ws/a.sql")
  ∧ loadInOrder Sample.host MoreSamples.unconfiguredSpace "file:///ws/a.sql"
    = MoreSamples.unconfiguredSpace.
Proof.
  assert (loadDefinitionInWorkspace Sample.host
            MoreSamples.unconfiguredSpace "file:///ws/a.sql"
            (loadInOrder Sample.host MoreSamples.unconfiguredSpace
               "file:///ws/a.sql")) as Hrun
    by apply loadInOrder_is_a_load.
  split; [reflexivity|]. split; [exact Hrun|].
  apply (load_without_files Sample.host MoreSamples.unconfiguredSpace _
           "file:///ws/a.sql"); [|exact Hrun].
  intros workspace filePattern _ Hpattern. by apply elem_of_nil in Hpattern.
Defined.

(** X7: a load changes the entry of a file only if a pattern matches the
    file and its text reads and parses to a statement list.  The entry of
    any other file, and the open documents, are after the load what they
    were before, in whatever order the parses settle. *)
Theorem load_changes_only_parsed_files (host : Host) (space final : Space.t)
    (resource other : Resource) :
  (∀ workspace filePattern file,
     Space.getWorkSpaceFolder space resource = Some workspace →
     filePattern ∈ definitionFilePatterns space resource →
     file ∈ glob host filePattern →
     fileResource workspace file = other →
     noStatements host other) →
  loadDefinitionInWorkspace host space resource final →
  DefinitionMap.fileEntry (Space.definitionMap final) other
  = DefinitionMap.fileEntry (Space.definitionMap space) other
  ∧ Space.documents final = Space.documents space.
Proof.
  intros Hquiet. unfold loadDefinitionInWorkspace.
  destruct (Space.getWorkSpaceFolder space resource) as [workspace|];
    [|by intros ->].
  intros Hrun.
  apply (loadFrame_steps host workspace
           (definitionFilePatterns space resource) other space) in Hrun
    as (_ & _ & _ & Hentry & Hdocuments); [done| |].
  - intros filePattern file. by apply Hquiet.
  - by repeat split; simpl; try constructor.
Qed.

Lemma load_changes_only_parsed_files_witness :
  noStatements Sample.host "file:///ws/broken.sql"
  ∧ DefinitionMap.fileEntry (Space.definitionMap Sample.loadedSpace)
      "file:///ws/broken.sql"
    = None
  ∧ DefinitionMap.fileEntry (Space.definitionMap Sample.loadedSpace)
      "file:///elsewhere/x.sql"
    = None.
Proof.
  assert (loadDefinitionInWorkspace Sample.host Sample.emptySpace
            "file:///ws/query.sql" Sample.loadedSpace) as Hrun
    by apply loadInOrder_is_a_load.
  split; [by vm_compute|]. split.
  - apply (load_changes_only_parsed_files Sample.host Sample.emptySpace
             Sample.loadedSpace "file:///ws/query.sql"
             "file:///ws/broken.sql"); [|exact Hrun].
    intros. by vm_compute.
  - apply (load_changes_only_parsed_files Sample.host Sample.emptySpace
             Sample.loadedSpace "file:///ws/query.sql"
             "file:///elsewhere/x.sql"); [|exact Hrun].
    intros. by vm_compute.
Defined.

(** ** Hover, the shape of an answer *)

(** X8: a hover that [getHover] returns is Markdown, and its text is the
    wrapped join of the definition texts of one single check: the
    definitions of two kinds, or of two candidates, are never mixed. *)
Theorem hover_is_one_check (svc : HoverServices) (helpers : Helpers)
    (pgPool : PostgresPool svc) (params : TextDocumentPositionParams.t)
    (document : TextDocument.t) (defaultSchema : string)
    (wordRange : Range.t) (hover : Hover.t) :
  getWordRangeAtPosition helpers document
    (TextDocumentPositionParams.position params) = Some wordRange →
  getHover svc helpers pgPool params document defaultSchema = Some hover →
  ∃ texts,
    texts ∈ hoverChecks svc pgPool defaultSchema
              (TextDocument.getText document (Some wordRange))
    ∧ texts ≠ []
    ∧ hover
      = Hover.mk
          (MarkupContent.mk MarkupKind.Markdown
             (makePostgresCodeMarkdown svc
                (String.concat (newline +:+ newline) texts))).
Proof.
  intros Hrange. unfold getHover. rewrite Hrange.
  rewrite hoverOfCandidates_first. fold (hoverChecks svc pgPool defaultSchema
    (TextDocument.getText document (Some wordRange))).
  destruct (head _) as [texts|] eqn:Hhead; [|done]. simpl.
  apply head_Some_elem_of, list_elem_of_filter in Hhead as [Hne Hin].
  intros Hhover. exists texts. split; [done|]. split; [done|].
  unfold makeHover in Hhover.
  destruct texts as [|text texts]; [done|].
  simpl in Hhover. by injection Hhover as <-.
Qed.

Lemma hover_is_one_check_witness :
  getHover Sample.hoverServices Sample.helpers () Sample.onOrders
    Sample.queryDocument "public"
  = Some (Hover.mk (MarkupContent.mk MarkupKind.Markdown
                      "TABLE public.orders (id int)"))
  ∧ ∃ texts,
      texts ∈ hoverChecks Sample.hoverServices () "public" "orders"
      ∧ texts ≠ []
      ∧ Hover.mk (MarkupContent.mk MarkupKind.Markdown
                    "TABLE public.orders (id int)")
        = Hover.mk
            (MarkupContent.mk MarkupKind.Markdown
               (makePostgresCodeMarkdown Sample.hoverServices
                  (String.concat (newline +:+ newline) texts))).
Proof.
  assert (getHover Sample.hoverServices Sample.helpers () Sample.onOrders
            Sample.queryDocument "public"
          = Some (Hover.mk (MarkupContent.mk MarkupKind.Markdown
                              "TABLE public.orders (id int)"))) as Hhover
    by reflexivity.
  split; [exact Hhover|].
  exact (hover_is_one_check Sample.hoverServices Sample.helpers ()
           Sample.onOrders Sample.queryDocument "public"
           (Range.create (Position.create 0 14) (Position.create 0 20))
           _ eq_refl Hhover).
Defined.

(** ** The handlers of the server *)

Section ServerFacts.
Context {S D P : Type} (svc : ServerServices S D P).
Implicit Types (st : Server.t S D P) (document : TextDocument.t).

Local Abbreviation sent st :=
  (Connection.sent (Handlers.connection (Server.handlers st))).
Local Abbreviation documentsOf st :=
  (Handlers.documents (Server.handlers st)).
Local Abbreviation definitionsOf st :=
  (Handlers.definitionsManager (Server.handlers st)).

Lemma settingsAndPool_frame uri st :
  Handlers.connection (Server.handlers (Server.settingsAndPool svc uri st).2)
  = Handlers.connection (Server.handlers st)
  ∧ documentsOf (Server.settingsAndPool svc uri st).2 = documentsOf st
  ∧ definitionsOf (Server.settingsAndPool svc uri st).2 = definitionsOf st.
Proof.
  unfold Server.settingsAndPool.
  destruct (settingsGet svc uri _) as [settings settingsManager].
  by destruct (getPool svc _ settings) as [pgPool pools].
Qed.

Lemma validate_frame document isComplete st :
  sent (Server.validate svc document isComplete st).2
  = sent st
      ++ [PublishDiagnosticsParams.mk (TextDocument.uri document)
            (default [] (Server.validate svc document isComplete st).1)]
  ∧ documentsOf (Server.validate svc document isComplete st).2
    = documentsOf st
  ∧ definitionsOf (Server.validate svc document isComplete st).2
    = definitionsOf st.
Proof.
  unfold Server.validate.
  destruct (disableValidation svc document); [done|].
  pose proof (settingsAndPool_frame (TextDocument.uri document) st)
    as (Hconnection & Hdocuments & Hdefinitions).
  destruct (Server.settingsAndPool svc (TextDocument.uri document) st)
    as [[settings [pgPool|]] st']; simpl in *;
    by rewrite Hconnection, Hdocuments, Hdefinitions.
Qed.

(** Validating a list of documents publishes one notification for each,
    in the order of the list. *)
Lemma validate_each (documents : list TextDocument.t) st :
  ∃ published,
    sent (foldl (λ st document, (Server.validate svc document false st).2)
                st documents)
    = sent st ++ published
    ∧ PublishDiagnosticsParams.uri <$> published
      = TextDocument.uri <$> documents
    ∧ documentsOf
        (foldl (λ st document, (Server.validate svc document false st).2)
               st documents)
      = documentsOf st
    ∧ definitionsOf
        (foldl (λ st document, (Server.validate svc document false st).2)
               st documents)
      = definitionsOf st.
Proof.
  revert st. induction documents as [|document documents IH]; intros st.
  - exists []. by rewrite app_nil_r.
  - simpl.
    destruct (IH (Server.validate svc document false st).2)
      as (published & Hsent & Huris & Hdocuments & Hdefinitions).
    destruct (validate_frame document false st) as (Hsent1 & Hdoc1 & Hdef1).
    exists (PublishDiagnosticsParams.mk (TextDocument.uri document)
              (default [] (Server.validate svc document false st).1)
            :: published).
    split; [by rewrite Hsent, Hsent1, <- (assoc_L (++))|].
    split; [by rewrite !fmap_cons, Huris|].
    split; [by rewrite Hdocuments | by rewrite Hdefinitions].
Qed.

Lemma hasChanges_from (changes : list FileEvent.t) (seen : bool) :
  foldl (λ hasChanges change,
           if decide (FileEvent.type_ change = FileChangeType.Changed)
           then true else hasChanges)
        seen changes
  = seen || bool_decide (Exists (λ change, FileEvent.type_ change
                                           = FileChangeType.Changed) changes).
Proof.
  revert seen. induction changes as [|change changes IH]; intros seen;
    cbn [foldl].
  - rewrite bool_decide_eq_false_2 by (by intros ?%Exists_nil).
    by destruct seen.
  - rewrite IH.
    destruct (decide (FileEvent.type_ change = FileChangeType.Changed))
      as [Hchanged|Hother].
    + rewrite (bool_decide_eq_true_2 (Exists _ (change :: changes)))
        by (by left).
      by destruct seen.
    + f_equal. apply bool_decide_ext. rewrite Exists_cons.
      split; [by right | by intros [Hhere|Hlater]].
Qed.

Lemma hasChanges_Exists (changes : list FileEvent.t) :
  Server.hasChanges changes = true
  ↔ Exists (λ change, FileEvent.type_ change = FileChangeType.Changed)
           changes.
Proof.
  unfold Server.hasChanges. rewrite hasChanges_from. simpl.
  apply bool_decide_eq_true.
Qed.

(** The handlers reach the definitions manager in three places: the load
    on opening, the update on saving, the resolution of a definition
    request.  Whatever these three do, the manager after an event is the
    one before it or what one of them returned. *)
Lemma handle_definitions (event : Server.Event) (st : Server.t S D P) :
  Handlers.definitionsManager (Server.handlers (Server.handle svc event st))
  = Handlers.definitionsManager (Server.handlers st)
  ∨ (∃ opened workspaceFolder settings,
       event = Server.DidOpen opened
       ∧ Handlers.definitionsManager
           (Server.handlers (Server.handle svc event st))
         = loadWorkspaceDefinitions svc workspaceFolder settings
             (Handlers.definitionsManager (Server.handlers st)))
  ∨ (∃ saved defaultSchema,
       event = Server.DidSave saved
       ∧ Handlers.definitionsManager
           (Server.handlers (Server.handle svc event st))
         = (updateFileDefinitions svc
              (readTextDocumentFromUri svc
                 (TextDocument.uri (TextDocumentChangeEvent.document saved)))
              defaultSchema
              (Handlers.definitionsManager (Server.handlers st))).2)
  ∨ (∃ params textDocument,
       event = Server.Definition_ params
       ∧ Handlers.documents (Server.handlers st)
           !! TextDocumentIdentifier.uri
                (TextDocumentPositionParams.textDocument params)
         = Some textDocument
       ∧ Handlers.definitionsManager
           (Server.handlers (Server.handle svc event st))
         = (managerDefinitionLinks svc
              (Handlers.definitionsManager (Server.handlers st))
              params textDocument).2).
Proof.
  destruct event as [event|event|event|event|params|params|settings
                    |changes|params]; simpl.
  - left. apply validate_frame.
  - by left.
  - unfold Server.onDidOpen.
    destruct (settingsGetWorkspaceFolder svc _ _) as [[folder|] manager];
      simpl; [|by left].
    destruct (hasWorkspaceFolder svc _ folder); simpl; [by left|].
    destruct (settingsGet svc _ manager) as [settings manager']. simpl.
    right. left. by exists event, folder, settings.
  - unfold Server.onDidSave.
    destruct (disableLanguageServer svc _); [by left|].
    destruct (validate_frame (TextDocumentChangeEvent.document event)
                true st) as (_ & _ & Hdefinitions).
    destruct (Server.validate svc _ true st) as [diagnostics st'].
    simpl in *. rewrite <- Hdefinitions.
    destruct (hasFileDefinitions svc _ _); simpl.
    + destruct (settingsGet svc _ _) as [settings manager]. simpl.
      right. right. left.
      exists event, (LanguageServerSettings.defaultSchema settings).
      split; [done|].
      by destruct (updateFileDefinitions svc _ _ _).
    + destruct (settingsIsDefinitionTarget svc _ _) as [[|] manager];
        simpl; [|by left].
      destruct (settingsGet svc _ manager) as [settings manager']. simpl.
      right. right. left.
      exists event, (LanguageServerSettings.defaultSchema settings).
      split; [done|].
      by destruct (updateFileDefinitions svc _ _ _).
  - left. unfold Server.onCompletion.
    destruct (Server.openDocument svc params st); [|done].
    pose proof (settingsAndPool_frame
                  (TextDocumentIdentifier.uri
                     (TextDocumentPositionParams.textDocument params)) st)
      as (_ & _ & Hdefinitions).
    by destruct (Server.settingsAndPool svc _ st) as [[settings [pgPool|]] st'].
  - unfold Server.onDefinition, Server.openDocument.
    destruct (Handlers.documents (Server.handlers st) !! _)
      as [textDocument|] eqn:Hopen; [|by left].
    destruct (disableLanguageServer svc textDocument); [by left|].
    right. right. right. exists params, textDocument.
    split; [done|]. split; [done|].
    by destruct (managerDefinitionLinks svc _ params textDocument).
  - left. unfold Server.onDidChangeConfiguration, Server.validateAll.
    by destruct (validate_each
                   (Server.allDocuments
                      (Server.withSettings st
                         (settingsReset svc settings
                            (Handlers.settingsManager (Server.handlers st)))))
                   (Server.withSettings st
                      (settingsReset svc settings
                         (Handlers.settingsManager (Server.handlers st)))))
      as (published & _ & _ & _ & ->).
  - left. unfold Server.onDidChangeWatchedFiles, Server.validateAll.
    destruct (Server.hasChanges changes); [|done].
    by destruct (validate_each (Server.allDocuments st) st)
      as (published & _ & _ & _ & ->).
  - left. unfold Server.onHover.
    destruct (Server.openDocument svc params st); [|done].
    pose proof (settingsAndPool_frame
                  (TextDocumentIdentifier.uri
                     (TextDocumentPositionParams.textDocument params)) st)
      as (_ & _ & Hdefinitions).
    by destruct (Server.settingsAndPool svc _ st) as [[settings [pgPool|]] st'].
Qed.
End ServerFacts.

(** ** Closing a document, and what can remove a file entry *)

Section EntriesKept.
Context (host : Host) (workspace : WorkspaceFolder.t).


End EntriesKept.




(** X9: [validate] publishes exactly one notification, for the document
    it was given, whatever the outcome: the diagnostics found, or the
    empty list when validation is disabled, no pool is to be had or the
    validator returns nothing.  It leaves the open documents and the
    definitions manager alone; with validation disabled it asks neither
    for settings nor for a pool. *)
Theorem validate_publishes_once {S D P : Type} (svc : ServerServices S D P)
    (document : TextDocument.t) (isComplete : bool) (st : Server.t S D P) :
  Connection.sent
    (Handlers.connection
       (Server.handlers (Server.validate svc document isComplete st).2))
  = Connection.sent (Handlers.connection (Server.handlers st))
      ++ [PublishDiagnosticsParams.mk (TextDocument.uri document)
            (default [] (Server.validate svc document isComplete st).1)]
  ∧ Handlers.documents
      (Server.handlers (Server.validate svc document isComplete st).2)
    = Handlers.documents (Server.handlers st)
  ∧ Handlers.definitionsManager
      (Server.handlers (Server.validate svc document isComplete st).2)
    = Handlers.definitionsManager (Server.handlers st)
  ∧ (disableValidation svc document = true →
     Server.validate svc document isComplete st
     = (None,
        Server.sendDiagnostics
          (PublishDiagnosticsParams.mk (TextDocument.uri document) []) st)).
Proof.
  destruct (validate_frame svc document isComplete st)
    as (Hsent & Hdocuments & Hdefinitions).
  split; [exact Hsent|]. split; [exact Hdocuments|].
  split; [exact Hdefinitions|].
  intros Hdisabled. unfold Server.validate. by rewrite Hdisabled.
Qed.

Lemma validate_publishes_once_witness :
  disableValidation (ServerSamples.servicesWith true) Sample.queryDocument
  = true
  ∧ Server.validate (ServerSamples.servicesWith true) Sample.queryDocument
      false ServerSamples.started
    = (None,
       Server.sendDiagnostics
         (PublishDiagnosticsParams.mk "file:///ws/query.sql" [])
         ServerSamples.started).
Proof.
  split; [reflexivity|].
  exact (proj2 (proj2 (proj2
           (validate_publishes_once (ServerSamples.servicesWith true)
              Sample.queryDocument false ServerSamples.started))) eq_refl).
Defined.

(** X10: a watched-files notification validates the open documents only
    if one of its changes is of type [Changed].  With creations and
    deletions alone the server does nothing; otherwise it publishes one
    notification for each open document. *)
Theorem watched_files_only_changed {S D P : Type}
    (svc : ServerServices S D P) (changes : list FileEvent.t)
    (st : Server.t S D P) :
  (Forall (λ change, FileEvent.type_ change ≠ FileChangeType.Changed)
          changes →
   Server.onDidChangeWatchedFiles svc changes st = st)
  ∧ (Exists (λ change, FileEvent.type_ change = FileChangeType.Changed)
            changes →
     ∃ published,
       Connection.sent
         (Handlers.connection
            (Server.handlers (Server.onDidChangeWatchedFiles svc changes st)))
       = Connection.sent (Handlers.connection (Server.handlers st))
           ++ published
       ∧ PublishDiagnosticsParams.uri <$> published
         ≡ₚ TextDocument.uri <$> Server.allDocuments st).
Proof.
  unfold Server.onDidChangeWatchedFiles. split.
  - intros Hnone.
    destruct (Server.hasChanges changes) eqn:Hchanges; [|done].
    apply hasChanges_Exists, Exists_exists in Hchanges
      as (change & Hchange & Hchanged).
    by destruct (proj1 (Forall_forall _ _) Hnone change Hchange).
  - intros Hsome. apply hasChanges_Exists in Hsome as ->.
    unfold Server.validateAll.
    destruct (validate_each svc (Server.allDocuments st) st)
      as (published & Hsent & Huris & _).
    exists published. by rewrite Hsent, Huris.
Qed.

Lemma watched_files_only_changed_witness :
  Server.onDidChangeWatchedFiles ServerSamples.services
    [ServerSamples.created] ServerSamples.started
  = ServerSamples.started
  ∧ ∃ published,
      Connection.sent
        (Handlers.connection
           (Server.handlers
              (Server.onDidChangeWatchedFiles ServerSamples.services
                 [ServerSamples.created; ServerSamples.changed]
                 ServerSamples.started)))
      = Connection.sent
          (Handlers.connection (Server.handlers ServerSamples.started))
          ++ published
      ∧ PublishDiagnosticsParams.uri <$> published
        ≡ₚ TextDocument.uri <$> Server.allDocuments ServerSamples.started.
Proof.
  split.
  - apply (proj1 (watched_files_only_changed ServerSamples.services
                    [ServerSamples.created] ServerSamples.started)).
    by repeat constructor.
  - apply (proj2 (watched_files_only_changed ServerSamples.services
                    [ServerSamples.created; ServerSamples.changed]
                    ServerSamples.started)).
    right. by left.
Defined.

(** X11: the handlers hand the definitions manager to other code on
    three events only: the opening of a document (to load), a save (to
    update) and a definition request (to resolve).  After the handler of
    any other event (a content change, a close, a completion or hover
    request, a change of configuration or of watched files) the
    definitions manager is what it was. *)
Theorem definitions_reached_on_three_events {S D P : Type}
    (svc : ServerServices S D P) (event : Server.Event)
    (st : Server.t S D P) :
  Server.reachesDefinitions event = false →
  Handlers.definitionsManager (Server.handlers (Server.handle svc event st))
  = Handlers.definitionsManager (Server.handlers st).
Proof.
  intros Hevent.
  destruct (handle_definitions svc event st)
    as [Hsame|[(opened & folder & settings & -> & _)
       |[(saved & defaultSchema & -> & _)
        |(params & textDocument & -> & _)]]];
    [exact Hsame|done..].
Qed.

Lemma definitions_reached_on_three_events_witness :
  Server.reachesDefinitions (Server.DidChangeConfiguration Sample.settings)
  = false
  ∧ Handlers.definitionsManager
      (Server.handlers
         (Server.handle ServerSamples.services
            (Server.DidChangeConfiguration Sample.settings)
            ServerSamples.started))
    = DefinitionMap.empty.
Proof.
  split; [reflexivity|].
  exact (definitions_reached_on_three_events ServerSamples.services
           (Server.DidChangeConfiguration Sample.settings)
           ServerSamples.started eq_refl).
Defined.

(** X12: no handler changes the set of open documents, and a request
    (completion, definition, hover) or the opening of a document
    publishes no diagnostics. *)
Theorem requests_publish_nothing {S D P : Type} (svc : ServerServices S D P)
    (event : Server.Event) (st : Server.t S D P) :
  Handlers.documents (Server.handlers (Server.handle svc event st))
  = Handlers.documents (Server.handlers st)
  ∧ (Server.isRequestOrOpen event = true →
     Handlers.connection (Server.handlers (Server.handle svc event st))
     = Handlers.connection (Server.handlers st)).
Proof.
  assert (∀ uri st,
            Handlers.connection
              (Server.handlers (Server.settingsAndPool svc uri st).2)
            = Handlers.connection (Server.handlers st)
            ∧ Handlers.documents
                (Server.handlers (Server.settingsAndPool svc uri st).2)
              = Handlers.documents (Server.handlers st)) as Hpool.
  { intros uri st'. by destruct (settingsAndPool_frame svc uri st')
      as (-> & -> & _). }
  destruct event as [event|event|event|event|params|params|settings
                    |changes|params]; simpl.
  - split; [apply validate_frame|done].
  - done.
  - unfold Server.onDidOpen.
    destruct (settingsGetWorkspaceFolder svc _ _) as [[folder|] manager];
      simpl; [|done].
    destruct (hasWorkspaceFolder svc _ folder); simpl; [done|].
    by destruct (settingsGet svc _ manager).
  - split; [|done]. unfold Server.onDidSave.
    destruct (disableLanguageServer svc _); [done|].
    destruct (validate_frame svc (TextDocumentChangeEvent.document event)
                true st) as (_ & Hdocuments & _).
    destruct (Server.validate svc _ true st) as [diagnostics st'].
    simpl in *.
    destruct (hasFileDefinitions svc _ _); simpl.
    + destruct (settingsGet svc _ _) as [settings manager]. simpl.
      by destruct (updateFileDefinitions svc _ _ _).
    + destruct (settingsIsDefinitionTarget svc _ _) as [[|] manager];
        simpl; [|done].
      destruct (settingsGet svc _ manager) as [settings manager']. simpl.
      by destruct (updateFileDefinitions svc _ _ _).
  - unfold Server.onCompletion.
    destruct (Server.openDocument svc params st); [|done].
    destruct (Hpool (TextDocumentIdentifier.uri
                       (TextDocumentPositionParams.textDocument params)) st)
      as [Hconnection Hdocuments].
    by destruct (Server.settingsAndPool svc _ st) as [[settings [pgPool|]] st'].
  - unfold Server.onDefinition.
    destruct (Server.openDocument svc params st) as [textDocument|];
      [|done].
    by destruct (managerDefinitionLinks svc _ params textDocument).
  - split; [|done].
    unfold Server.onDidChangeConfiguration, Server.validateAll.
    by destruct (validate_each svc
                   (Server.allDocuments
                      (Server.withSettings st
                         (settingsReset svc settings
                            (Handlers.settingsManager (Server.handlers st)))))
                   (Server.withSettings st
                      (settingsReset svc settings
                         (Handlers.settingsManager (Server.handlers st)))))
      as (published & _ & _ & -> & _).
  - split; [|done].
    unfold Server.onDidChangeWatchedFiles, Server.validateAll.
    destruct (Server.hasChanges changes); [|done].
    by destruct (validate_each svc (Server.allDocuments st) st)
      as (published & _ & _ & -> & _).
  - unfold Server.onHover.
    destruct (Server.openDocument svc params st); [|done].
    destruct (Hpool (TextDocumentIdentifier.uri
                       (TextDocumentPositionParams.textDocument params)) st)
      as [Hconnection Hdocuments].
    by destruct (Server.settingsAndPool svc _ st) as [[settings [pgPool|]] st'].
Qed.

Lemma requests_publish_nothing_witness :
  Server.isRequestOrOpen (Server.HoverRequest Sample.onOrders) = true
  ∧ Handlers.connection
      (Server.handlers
         (Server.handle ServerSamples.services
            (Server.HoverRequest Sample.onOrders) ServerSamples.started))
    = Connection.mk [].
Proof.
  split; [reflexivity|].
  exact (proj2 (requests_publish_nothing ServerSamples.services
                  (Server.HoverRequest Sample.onOrders)
                  ServerSamples.started) eq_refl).
Defined.

(** ** The client extension *)

Section ClientFacts.
Import Client.
Implicit Types (s : Client.t) (client : LanguageClient.t).

Lemma wellFormed_initial : wellFormed initial.
Proof.
  unfold wellFormed, held, running. simpl.
  split; [|split; [|split; [|split]]].
  - intros client Hstart. by apply elem_of_nil in Hstart.
  - intros client Hstop. by apply elem_of_nil in Hstop.
  - intros client. split.
    + intros [Hdefault|[key Hkey]]; [done|]. by rewrite lookup_empty in Hkey.
    + intros [Hstart _]. by apply elem_of_nil in Hstart.
  - intros key key' client Hkey. by rewrite lookup_empty in Hkey.
  - intros key client Hkey. by rewrite lookup_empty in Hkey.
Qed.

(** A client that is being created has not been seen before. *)
Lemma fresh_client s client :
  wellFormed s → LanguageClient.identity client = created s →
  (Start client ∉ effects s) ∧ (Stop client ∉ effects s)
  ∧ ¬ held s client.
Proof.
  intros (Hcreated & Hstopped & Hheld & _) Hidentity.
  assert (Start client ∉ effects s) as Hstart.
  { intros Hstart%Hcreated. lia. }
  split; [done|]. split.
  - by intros Hstop%Hstopped.
  - by intros [Hrunning _]%Hheld.
Qed.

Lemma wellFormed_add_default s client :
  wellFormed s → defaultClient s = None →
  LanguageClient.identity client = created s →
  wellFormed (mk (Some client) (clients s) (Datatypes.S (created s))
                 (effects s ++ [Start client])).
Proof.
  intros Hs Hnone Hidentity.
  destruct (fresh_client s client Hs Hidentity)
    as (Hnostart & Hnostop & Hnotheld).
  destruct Hs as (Hcreated & Hstopped & Hheld & Hkeys & Hdefault).
  unfold wellFormed, held, running in *. simpl.
  split; [|split; [|split; [|split]]].
  - intros c [Hc|Hc%list_elem_of_singleton]%elem_of_app.
    + apply Hcreated in Hc. lia.
    + injection Hc as ->. lia.
  - intros c [Hc|Hc%list_elem_of_singleton]%elem_of_app; [|done].
    apply elem_of_app. left. by apply Hstopped.
  - intros c. rewrite !elem_of_app, !list_elem_of_singleton. split.
    + intros [[= <-]|Hkey].
      * split; [by right|]. by intros [Hstop|Hstop].
      * destruct (proj1 (Hheld c)) as [Hstart Hstop]; [by right|].
        split; [by left|]. by intros [Hc|Hc].
    + intros [[Hstart|[= ->]] Hstop]; [|by left].
      destruct (proj2 (Hheld c)) as [Hc|Hc].
      * split; [done|]. intros Hc. apply Hstop. by left.
      * congruence.
      * by right.
  - done.
  - intros key c Hkey [= ->]. apply Hnotheld. right. by exists key.
Qed.

Lemma wellFormed_add_folder s key client :
  wellFormed s → clients s !! key = None →
  LanguageClient.identity client = created s →
  wellFormed (mk (defaultClient s) (<[key := client]> (clients s))
                 (Datatypes.S (created s)) (effects s ++ [Start client])).
Proof.
  intros Hs Hnone Hidentity.
  destruct (fresh_client s client Hs Hidentity)
    as (Hnostart & Hnostop & Hnotheld).
  destruct Hs as (Hcreated & Hstopped & Hheld & Hkeys & Hdefault).
  unfold wellFormed, held, running in *. simpl.
  split; [|split; [|split; [|split]]].
  - intros c [Hc|Hc%list_elem_of_singleton]%elem_of_app.
    + apply Hcreated in Hc. lia.
    + injection Hc as ->. lia.
  - intros c [Hc|Hc%list_elem_of_singleton]%elem_of_app; [|done].
    apply elem_of_app. left. by apply Hstopped.
  - intros c. rewrite !elem_of_app, !list_elem_of_singleton. split.
    + intros [Hc|[k Hk]].
      * destruct (proj1 (Hheld c)) as [Hstart Hstop]; [by left|].
        split; [by left|]. by intros [Hstop'|Hstop'].
      * destruct (decide (key = k)) as [<-|Hne].
        -- rewrite lookup_insert_eq in Hk. injection Hk as <-.
           split; [by right|]. by intros [Hstop|Hstop].
        -- rewrite lookup_insert_ne in Hk by done.
           destruct (proj1 (Hheld c)) as [Hstart Hstop];
             [right; by exists k|].
           split; [by left|]. by intros [Hstop'|Hstop'].
    + intros [[Hstart|[= ->]] Hstop].
      * destruct (proj2 (Hheld c)) as [Hc|[k Hk]].
        -- split; [done|]. intros Hc. apply Hstop. by left.
        -- by left.
        -- right. exists k. rewrite lookup_insert_ne; [done|].
           intros <-. congruence.
      * right. exists key. by rewrite lookup_insert_eq.
  - intros k k' c Hk Hk'.
    destruct (decide (key = k)) as [<-|Hne];
      destruct (decide (key = k')) as [<-|Hne']; [done|..].
    + rewrite lookup_insert_eq in Hk. injection Hk as <-.
      rewrite lookup_insert_ne in Hk' by done.
      destruct Hnotheld. right. by exists k'.
    + rewrite lookup_insert_eq in Hk'. injection Hk' as <-.
      rewrite lookup_insert_ne in Hk by done.
      destruct Hnotheld. right. by exists k.
    + rewrite lookup_insert_ne in Hk, Hk' by done. by eapply Hkeys.
  - intros k c Hk Hc. destruct (decide (key = k)) as [<-|Hne].
    + rewrite lookup_insert_eq in Hk. injection Hk as <-.
      apply Hnotheld. by left.
    + rewrite lookup_insert_ne in Hk by done. by eapply Hdefault.
Qed.

Lemma wellFormed_remove s key client :
  wellFormed s → clients s !! key = Some client →
  wellFormed (mk (defaultClient s) (delete key (clients s)) (created s)
                 (effects s ++ [Stop client])).
Proof.
  intros (Hcreated & Hstopped & Hheld & Hkeys & Hdefault) Hkey.
  destruct (proj1 (Hheld client)) as [Hstart Hnostop];
    [right; by exists key|].
  unfold wellFormed, held, running in *. simpl.
  split; [|split; [|split; [|split]]].
  - intros c [Hc|Hc%list_elem_of_singleton]%elem_of_app; [|done].
    by apply Hcreated.
  - intros c [Hc|Hc%list_elem_of_singleton]%elem_of_app;
      apply elem_of_app; left.
    + by apply Hstopped.
    + by injection Hc as ->.
  - intros c. rewrite !elem_of_app, !list_elem_of_singleton. split.
    + intros [Hc|[k Hk]].
      * destruct (proj1 (Hheld c)) as [Hcstart Hcstop]; [by left|].
        split; [by left|]. intros [Hstop|[= ->]]; [done|].
        by eapply Hdefault.
      * destruct (decide (key = k)) as [<-|Hne].
        -- by rewrite lookup_delete_eq in Hk.
        -- rewrite lookup_delete_ne in Hk by done.
           destruct (proj1 (Hheld c)) as [Hcstart Hcstop];
             [right; by exists k|].
           split; [by left|]. intros [Hstop|[= ->]]; [done|].
           apply Hne. by eapply Hkeys.
    + intros [[Hcstart|Hcstart] Hcstop]; [|done].
      destruct (proj2 (Hheld c)) as [Hc|[k Hk]].
      * split; [done|]. intros Hc. apply Hcstop. by left.
      * by left.
      * right. exists k. rewrite lookup_delete_ne; [done|].
        intros <-. apply Hcstop. right. congruence.
  - intros k k' c Hk Hk'.
    apply lookup_delete_Some in Hk as [_ Hk].
    apply lookup_delete_Some in Hk' as [_ Hk']. by eapply Hkeys.
  - intros k c Hk. apply lookup_delete_Some in Hk as [_ Hk].
    by eapply Hdefault.
Qed.

Lemma wellFormed_didOpenTextDocument getWorkspaceFolder document s :
  wellFormed s →
  wellFormed (didOpenTextDocument getWorkspaceFolder document s).
Proof.
  intros Hs. unfold didOpenTextDocument.
  case_bool_decide as Hfilter; [done|]. cbv zeta.
  case_bool_decide as Huntitled.
  - destruct Huntitled as [_ Hnone]. by apply wellFormed_add_default.
  - destruct (getWorkspaceFolder _) as [folder|]; [|done].
    destruct (clients s !! _) as [present|] eqn:Hkey; [done|].
    by apply wellFormed_add_folder.
Qed.

Lemma wellFormed_removeFolder s folder :
  wellFormed s → wellFormed (removeFolder s folder).
Proof.
  intros Hs. unfold removeFolder. cbv zeta.
  destruct (clients s !! _) as [client|] eqn:Hkey; [|done].
  by apply wellFormed_remove.
Qed.

Lemma wellFormed_step s event :
  wellFormed s → wellFormed (step s event).
Proof.
  destruct event as [getWorkspaceFolder document|removed]; simpl.
  - apply wellFormed_didOpenTextDocument.
  - unfold onDidChangeWorkspaceFolders. revert s.
    induction removed as [|folder removed IH]; intros s Hs; [done|].
    simpl. by apply IH, wellFormed_removeFolder.
Qed.

Lemma wellFormed_run events : wellFormed (run events).
Proof.
  unfold run. generalize wellFormed_initial. generalize initial.
  induction events as [|event events IH]; intros s Hs; [done|].
  simpl. by apply IH, wellFormed_step.
Qed.
End ClientFacts.

(** X13: whatever documents are opened and folders removed, the clients
    the extension holds (the default client and those of the folders) are
    exactly the clients that are running: every client it holds has been
    started and not stopped, and a client it has dropped has been
    stopped. *)
Theorem held_clients_are_running (events : list Client.Event)
    (client : Client.LanguageClient.t) :
  Client.held (Client.run events) client
  ↔ Client.running (Client.run events) client.
Proof.
  destruct (wellFormed_run events) as (_ & _ & Hheld & _).
  apply Hheld.
Qed.

Lemma portsInOrder_didOpenTextDocument
    (getWorkspaceFolder : Client.Uri.t → option Client.WorkspaceFolder.t)
    (document : Client.TextDocument.t) (s : Client.t) :
  Client.portsInOrder s →
  Client.portsInOrder
    (Client.didOpenTextDocument getWorkspaceFolder document s).
Proof.
  intros [Hrange Hdistinct]. unfold Client.didOpenTextDocument.
  case_bool_decide as Hfilter; [done|]. cbv zeta.
  case_bool_decide as Huntitled; [done|].
  destruct (getWorkspaceFolder _) as [folder|]; [|done].
  destruct (Client.clients s !! _) as [present|] eqn:Hkey; [done|].
  unfold Client.portsInOrder. simpl.
  rewrite (map_size_insert_None _ _ _ Hkey). split.
  - intros key client Hclient.
    apply lookup_insert_Some in Hclient as [[_ <-]|[_ Hclient]]; simpl.
    + lia.
    + apply Hrange in Hclient. lia.
  - intros key key' client client' Hclient Hclient' Hport.
    apply lookup_insert_Some in Hclient as [[<- <-]|[Hne Hclient]];
      apply lookup_insert_Some in Hclient' as [[<- <-]|[Hne' Hclient']];
      simpl in *.
    + done.
    + apply Hrange in Hclient'. lia.
    + apply Hrange in Hclient. lia.
    + by eapply Hdistinct.
Qed.

(** X14: as long as no folder is removed, the folder clients are created
    with debug ports that differ from one another and from the port of
    the default client. *)
Theorem debug_ports_differ
    (opens : list ((Client.Uri.t → option Client.WorkspaceFolder.t)
                   * Client.TextDocument.t))
    (key key' : string) (client client' : Client.LanguageClient.t) :
  Client.clients
    (foldl (λ s o, Client.didOpenTextDocument o.1 o.2 s) Client.initial
           opens) !! key = Some client →
  Client.clients
    (foldl (λ s o, Client.didOpenTextDocument o.1 o.2 s) Client.initial
           opens) !! key' = Some client' →
  (Client.LanguageClient.inspect client = Client.LanguageClient.inspect client'
   → key = key')
  ∧ Client.LanguageClient.inspect client ≠ 6170%N.
Proof.
  assert (Client.portsInOrder
            (foldl (λ s o, Client.didOpenTextDocument o.1 o.2 s)
                   Client.initial opens)) as [Hrange Hdistinct].
  { assert (Client.portsInOrder Client.initial) as Hinitial.
    { split.
      - intros k c Hk. simpl in Hk. by rewrite lookup_empty in Hk.
      - intros k k' c c' Hk. simpl in Hk. by rewrite lookup_empty in Hk. }
    revert Hinitial. generalize Client.initial.
    induction opens as [|o opens IH]; intros s Hs; [done|].
    simpl. by apply IH, portsInOrder_didOpenTextDocument. }
  intros Hclient Hclient'. split.
  - by eapply Hdistinct.
  - apply Hrange in Hclient. lia.
Qed.

Lemma debug_ports_differ_witness :
  Client.LanguageClient.inspect
    (Client.folderClient Client.initial ClientSamples.folderA)
  ≠ 6170%N
  ∧ Client.clients
      (foldl (λ s o, Client.didOpenTextDocument o.1 o.2 s) Client.initial
         [(ClientSamples.getWorkspaceFolder,
           ClientSamples.document "postgres" "file" "/a/one.sql");
          (ClientSamples.getWorkspaceFolder,
           ClientSamples.document "postgres" "file" "/b/two.sql")])
    !! "file:///a"
    = Some (Client.folderClient Client.initial ClientSamples.folderA).
Proof.
  assert (Client.clients
            (foldl (λ s o, Client.didOpenTextDocument o.1 o.2 s)
               Client.initial
               [(ClientSamples.getWorkspaceFolder,
                 ClientSamples.document "postgres" "file" "/a/one.sql");
                (ClientSamples.getWorkspaceFolder,
                 ClientSamples.document "postgres" "file" "/b/two.sql")])
            !! "file:///a"
          = Some (Client.folderClient Client.initial ClientSamples.folderA))
    as Hclient by (by vm_compute).
  split; [|exact Hclient].
  exact (proj2 (debug_ports_differ _ _ _ _ _ Hclient Hclient)).
Defined.

(** X15: a second postgres file from a workspace folder starts no second
    client: opening it leaves the extension as the first file left it. *)
Theorem one_client_per_folder
    (getWorkspaceFolder : Client.Uri.t → option Client.WorkspaceFolder.t)
    (first second : Client.TextDocument.t)
    (folder : Client.WorkspaceFolder.t) (s : Client.t) :
  Client.TextDocument.languageId first = "postgres" →
  Client.TextDocument.languageId second = "postgres" →
  Client.Uri.scheme (Client.TextDocument.uri first) = "file" →
  Client.Uri.scheme (Client.TextDocument.uri second) = "file" →
  getWorkspaceFolder (Client.TextDocument.uri first) = Some folder →
  getWorkspaceFolder (Client.TextDocument.uri second) = Some folder →
  Client.didOpenTextDocument getWorkspaceFolder second
    (Client.didOpenTextDocument getWorkspaceFolder first s)
  = Client.didOpenTextDocument getWorkspaceFolder first s.
Proof.
  intros Hlanguage1 Hlanguage2 Hscheme1 Hscheme2 Hfolder1 Hfolder2.
  assert (∀ s', Client.clients s'
                  !! Client.Uri.toString (Client.WorkspaceFolder.uri folder)
                ≠ None →
                Client.didOpenTextDocument getWorkspaceFolder second s' = s')
    as Hsecond.
  { intros s' Hpresent. unfold Client.didOpenTextDocument.
    rewrite Hlanguage2, Hscheme2, Hfolder2.
    rewrite bool_decide_eq_false_2 by (by intros [?|[? ?]]).
    rewrite bool_decide_eq_false_2 by (by intros [? ?]).
    cbv zeta. by destruct (Client.clients s' !! _). }
  apply Hsecond. unfold Client.didOpenTextDocument.
  rewrite Hlanguage1, Hscheme1, Hfolder1.
  rewrite bool_decide_eq_false_2 by (by intros [?|[? ?]]).
  rewrite bool_decide_eq_false_2 by (by intros [? ?]).
  cbv zeta.
  destruct (Client.clients s !! _) as [present|] eqn:Hkey.
  - by rewrite Hkey.
  - simpl. by rewrite lookup_insert_eq.
Qed.

Lemma one_client_per_folder_witness :
  ClientSamples.getWorkspaceFolder
    (Client.TextDocument.uri
       (ClientSamples.document "postgres" "file" "/a/one.sql"))
  = Some ClientSamples.folderA
  ∧ Client.didOpenTextDocument ClientSamples.getWorkspaceFolder
      (ClientSamples.document "postgres" "file" "/a/two.sql")
      (Client.didOpenTextDocument ClientSamples.getWorkspaceFolder
         (ClientSamples.document "postgres" "file" "/a/one.sql")
         Client.initial)
    = Client.didOpenTextDocument ClientSamples.getWorkspaceFolder
        (ClientSamples.document "postgres" "file" "/a/one.sql")
        Client.initial.
Proof.
  split; [reflexivity|].
  apply (one_client_per_folder ClientSamples.getWorkspaceFolder
           (ClientSamples.document "postgres" "file" "/a/one.sql")
           (ClientSamples.document "postgres" "file" "/a/two.sql")
           ClientSamples.folderA Client.initial); reflexivity.
Defined.

(** X16: removing workspace folders drops the clients of exactly these
    folders from [clients]; the clients of the other folders and the
    default client stay. *)
Theorem removed_folders_clients (removed : list Client.WorkspaceFolder.t)
    (s : Client.t) (key : string) :
  Client.clients (Client.onDidChangeWorkspaceFolders removed s) !! key
  = (if bool_decide
          (key ∈ (λ folder,
                    Client.Uri.toString (Client.WorkspaceFolder.uri folder))
                 <$> removed)
     then None else Client.clients s !! key)
  ∧ Client.defaultClient (Client.onDidChangeWorkspaceFolders removed s)
    = Client.defaultClient s.
Proof.
  unfold Client.onDidChangeWorkspaceFolders. revert s.
  induction removed as [|folder removed IH]; intros s; [done|].
  cbn [foldl]. destruct (IH (Client.removeFolder s folder)) as [-> ->].
  assert (Client.defaultClient (Client.removeFolder s folder)
          = Client.defaultClient s) as Hdefault.
  { unfold Client.removeFolder. cbv zeta.
    by destruct (Client.clients s !! _). }
  split; [|done].
  assert (Client.clients (Client.removeFolder s folder) !! key
          = if decide (key = Client.Uri.toString
                               (Client.WorkspaceFolder.uri folder))
            then None else Client.clients s !! key) as Hone.
  { unfold Client.removeFolder. cbv zeta.
    destruct (decide (key = Client.Uri.toString
                              (Client.WorkspaceFolder.uri folder)))
      as [->|Hne];
      destruct (Client.clients s !! Client.Uri.toString _) as [client|]
        eqn:Hkey; simpl; [|done| |done].
    - by rewrite lookup_delete_eq.
    - by rewrite lookup_delete_ne. }
  rewrite Hone, fmap_cons.
  destruct (decide (key = Client.Uri.toString
                            (Client.WorkspaceFolder.uri folder)))
    as [Heq|Hne].
  - rewrite (bool_decide_eq_true_2 (key ∈ _ :: _))
      by (apply elem_of_cons; by left).
    by case_bool_decide.
  - apply (f_equal (λ b : bool, if b then None else Client.clients s !! key)).
    apply bool_decide_ext. rewrite elem_of_cons.
    split; [by right | by intros [Hhere|Hlater]].
Qed.

(** X17: after [deactivate] no client is running, whatever documents
    were opened and folders removed before. *)
Theorem deactivate_stops_every_client (events : list Client.Event)
    (client : Client.LanguageClient.t) :
  ¬ Client.running (Client.deactivate (Client.run events)) client.
Proof.
  destruct (wellFormed_run events) as (_ & _ & Hheld & _).
  unfold Client.running, Client.deactivate. simpl.
  intros [Hstart Hstop]. apply Hstop.
  rewrite !elem_of_app in Hstart |- *.
  destruct Hstart as [Hstart|[Hstart|Hstart]].
  - destruct (decide (Client.Stop client
                        ∈ Client.effects (Client.run events)))
      as [Hstopped|Hnot]; [by left|].
    destruct (proj2 (Hheld client)) as [Hdefault|[key Hkey]]; [done|..].
    + right. left. rewrite Hdefault. by left.
    + right. right. apply list_elem_of_fmap. exists client.
      split; [done|]. apply list_elem_of_fmap. exists (key, client).
      split; [done|]. by apply elem_of_map_to_list.
  - destruct (Client.defaultClient _); [|by apply elem_of_nil in Hstart].
    by apply list_elem_of_singleton in Hstart.
  - by apply list_elem_of_fmap in Hstart as (c & Hc & _).
Qed.

(** ** The two ways to parse *)

(** X18: an update changes the index exactly as [getStmtements] reads the
    text of the file: the candidates of the statements replace the entry
    of the file when [getStmtements] returns statements, and nothing
    changes when it returns [undefined]. *)
Theorem update_follows_getStmtements (host : Host) (resource : Resource)
    (space : Space.t) (text : string) :
  readFileSync host (removeFileScheme resource) = Normal text →
  (updateFileDefinition host resource space).2
  = match getStmtements host text with
    | Some stmts =>
        Space.withDefinitionMap space
          (DefinitionMap.updateCandidates resource
             (createStmts stmts resource) (Space.definitionMap space))
    | None => space
    end.
Proof.
  intros Hread. unfold updateFileDefinition, afterParse, getStmtements.
  rewrite Hread. destruct (parseQuery host text) as [query|e]; [|done].
  by destruct (query ?.Query.stmts).
Qed.

Lemma update_follows_getStmtements_witness :
  readFileSync Sample.host (removeFileScheme "file:///ws/orders.sql")
  = Normal Sample.ordersSql
  ∧ getStmtements Sample.host Sample.ordersSql = Some [Sample.orders]
  ∧ (updateFileDefinition Sample.host "file:///ws/orders.sql"
       Sample.emptySpace).2
    = Space.withDefinitionMap Sample.emptySpace
        (DefinitionMap.updateCandidates "file:///ws/orders.sql"
           (createStmts [Sample.orders] "file:///ws/orders.sql")
           DefinitionMap.empty).
Proof.
  split; [reflexivity|]. split; [reflexivity|].
  exact (update_follows_getStmtements Sample.host "file:///ws/orders.sql"
           Sample.emptySpace Sample.ordersSql eq_refl).
Defined.

(** ** Loading, whatever the schedule *)

Lemma settleReversed_steps (host : Host) (workspace : WorkspaceFolder.t)
    (tasks : list Task) (space : Space.t) (patterns : list string) :
  rtc (load_step host workspace)
      (Loader.mk space tasks patterns)
      (Loader.mk (settleInOrder host (reverse tasks) space) [] patterns).
Proof.
  revert space. induction tasks as [|task tasks IH] using rev_ind;
    intros space.
  - apply rtc_refl.
  - rewrite reverse_snoc. cbn [settleInOrder foldl].
    eapply rtc_l; [|apply IH].
    pose proof (step_settle host workspace space tasks task [] patterns)
      as Hstep.
    by rewrite app_nil_r in Hstep.
Qed.

Lemma loadReversed_is_a_load (host : Host) (space : Space.t)
    (resource : Resource) :
  loadDefinitionInWorkspace host space resource
    (loadReversed host space resource).
Proof.
  unfold loadDefinitionInWorkspace, loadReversed.
  destruct (Space.getWorkSpaceFolder space resource) as [workspace|];
    [|done].
  generalize (definitionFilePatterns space resource). intros patterns.
  revert space. induction patterns as [|filePattern patterns IH];
    intros space.
  - apply rtc_refl.
  - eapply rtc_l; [apply step_pattern|]. simpl.
    etrans; [apply settleReversed_steps|]. apply IH.
Qed.

(** X19: the Declarations a load leaves for a file do not depend on the
    order in which the parses settle: two runs of the same load agree on
    the entry of every file.  (The order of the entries in the index may
    differ.) *)
Theorem load_entries_whatever_the_schedule (host : Host)
    (space final final' : Space.t) (resource other : Resource) :
  loadDefinitionInWorkspace host space resource final →
  loadDefinitionInWorkspace host space resource final' →
  DefinitionMap.fileEntry (Space.definitionMap final) other
  = DefinitionMap.fileEntry (Space.definitionMap final') other.
Proof.
  unfold loadDefinitionInWorkspace.
  destruct (Space.getWorkSpaceFolder space resource) as [workspace|];
    [|by intros -> ->].
  intros Hrun Hrun'.
  assert (∀ end_,
            rtc (load_step host workspace)
                (Loader.mk space [] (definitionFilePatterns space resource))
                (Loader.mk end_ [] []) →
            (∀ filePattern file,
               filePattern ∈ definitionFilePatterns space resource →
               file ∈ glob host filePattern →
               fileResource workspace file = other →
               noStatements host other) →
            DefinitionMap.fileEntry (Space.definitionMap end_) other
            = DefinitionMap.fileEntry (Space.definitionMap space) other)
    as Hkept.
  { intros end_ Hend Hquiet.
    apply (loadFrame_steps host workspace
             (definitionFilePatterns space resource) other space) in Hend
      as (_ & _ & _ & Hentry & _); [done|done|].
    by repeat split; simpl; try constructor. }
  destruct (readFileSync host (removeFileScheme other)) as [text|e]
    eqn:Hread.
  - destruct (parseQuery host text) as [query|e] eqn:Hparse.
    + destruct (query ?.Query.stmts) as [stmts|] eqn:Hstmts.
      * destruct (decide (other
                          ∈ definitionFilePatterns space resource
                            ≫= λ filePattern,
                                 fileResource workspace
                                   <$> glob host filePattern))
          as [Hmatched|Hnot].
        -- apply list_elem_of_bind in Hmatched as (filePattern & Hfile & Hp).
           apply list_elem_of_fmap in Hfile as (file & -> & Hfile).
           assert (∀ end_,
                     rtc (load_step host workspace)
                         (Loader.mk space []
                            (definitionFilePatterns space resource))
                         (Loader.mk end_ [] []) →
                     DefinitionMap.fileEntry (Space.definitionMap end_)
                       (fileResource workspace file)
                     = Some (createStmts stmts (fileResource workspace file)))
             as Hinstalled.
           { intros end_ Hend.
             apply (loadInvariant_final host workspace file text stmts).
             eapply (loadInvariant_steps host workspace file text query
                       stmts); [done..|].
             split; simpl; [constructor|]. left. by exists filePattern. }
           by rewrite (Hinstalled final), (Hinstalled final').
        -- assert (∀ filePattern file,
                     filePattern ∈ definitionFilePatterns space resource →
                     file ∈ glob host filePattern →
                     fileResource workspace file = other →
                     noStatements host other) as Hquiet.
           { intros filePattern file Hp Hfile Hother. destruct Hnot.
             apply list_elem_of_bind. exists filePattern. split; [|done].
             apply list_elem_of_fmap. by exists file. }
           by rewrite (Hkept final), (Hkept final').
      * rewrite (Hkept final), (Hkept final'); [done|..]; try done;
          intros filePattern file _ _ _; unfold noStatements, getStmtements;
          by rewrite Hread, Hparse.
    + rewrite (Hkept final), (Hkept final'); [done|..]; try done;
        intros filePattern file _ _ _; unfold noStatements, getStmtements;
        by rewrite Hread, Hparse.
  - rewrite (Hkept final), (Hkept final'); [done|..]; try done;
      intros filePattern file _ _ _; unfold noStatements;
      by rewrite Hread.
Qed.

Lemma load_entries_whatever_the_schedule_witness :
  loadDefinitionInWorkspace Sample.host Sample.emptySpace
    "file:///ws/query.sql" Sample.loadedSpace
  ∧ loadDefinitionInWorkspace Sample.host Sample.emptySpace
      "file:///ws/query.sql" MoreSamples.reversedSpace
  ∧ Space.definitionMap Sample.loadedSpace
    ≠ Space.definitionMap MoreSamples.reversedSpace
  ∧ DefinitionMap.fileEntry (Space.definitionMap Sample.loadedSpace)
      "file:///ws/functions.sql"
    = DefinitionMap.fileEntry (Space.definitionMap MoreSamples.reversedSpace)
        "file:///ws/functions.sql".
Proof.
  assert (loadDefinitionInWorkspace Sample.host Sample.emptySpace
            "file:///ws/query.sql" Sample.loadedSpace) as Hrun
    by apply loadInOrder_is_a_load.
  assert (loadDefinitionInWorkspace Sample.host Sample.emptySpace
            "file:///ws/query.sql" MoreSamples.reversedSpace) as Hrun'
    by apply loadReversed_is_a_load.
  split; [exact Hrun|]. split; [exact Hrun'|]. split.
  - vm_compute. intros Hsame. discriminate Hsame.
  - exact (load_entries_whatever_the_schedule Sample.host Sample.emptySpace
             Sample.loadedSpace MoreSamples.reversedSpace
             "file:///ws/query.sql" "file:///ws/functions.sql" Hrun Hrun').
Defined.
